(** * I2C-Control: the device / container / multiplexer addressing core

    A shallow embedding of [i2c_device.py], [i2c_container.py] and
    [tca9548.py].  Python objects live in a heap indexed by object identity;
    every method is a state transformer that may return, raise, or exhaust
    the recursion budget of the pre-access callback chain.  The state
    survives a raised exception, as attribute assignments do in Python. *)

From Stdlib Require Import ZArith String HexString.
From stdpp Require Import base option list gmap.

Open Scope Z_scope.

(** ** Python values and exceptions *)

(** The value of [pre_access]: [None] or one of the two bound methods that
    the core ever stores there. *)
Inductive Hook :=
| HookNone
| ContainerCallback (c : nat)   (* container._device_callback *)
| TCACallback (t : nat).        (* tca.__device_callback *)

(** What the access primitives return. *)
Inductive value :=
| VNone
| VInt (z : Z)
| VList (l : list Z).

(** A callable type together with the arguments of its constructor call. *)
Inductive Class :=
| ClsI2CDevice (addr : Z) (dbg : bool)
| ClsI2CContainer
| ClsTCA9548 (addr : Z) (dbg : bool)
| ClsOther.                     (* a callable that builds something else *)

(** The [device] argument of attach_device / remove_device. *)
Inductive PyArg :=
| ARef (id : nat)               (* an object *)
| AClass (k : Class)            (* a callable type *)
| AOther.                       (* None, a number, a string, ... *)

(** The messages of [I2CException]; the ['%s' % device] part is kept as the
    argument itself. *)
Inductive Message :=
| AccessError (err_msg : string)
| NotProperlyDetached (device : nat)
| TCAMustBeInstance (device : PyArg)
| TCANotAttached (device : PyArg)
| ContainerMustBeInstance (device : PyArg)
| ContainerNotAttached (device : PyArg).

Inductive Exn :=
| I2CException (m : Message)
| AttributeError
| KeyError
| TypeError.

(** ** Objects *)

Record I2CDevice := mkDevice {
  address : Z;
  debug : bool;
  pre_access : Hook
}.

Record I2CContainer := mkContainer {
  c_attached_devices : list nat;
  c_pre_access : Hook
}.

Record TCA9548 := mkTCA {
  base : I2CDevice;
  attached_devices : gmap nat N;
  selected_channel : option N
}.

Inductive Obj :=
| ODevice (d : I2CDevice)
| OContainer (c : I2CContainer)
| OTCA (t : TCA9548)
| OOther.

(** ** The bus, the trace and the log *)

Inductive BusOp :=
| WriteByteData (addr reg val : Z)
| WriteWordData (addr reg val : Z)
| WriteBlockData (addr reg : Z) (l : list Z)
| ReadByteData (addr reg : Z)
| ReadWordData (addr reg : Z)
| ReadBlockData (addr reg : Z) (len : nat).

(** What the transport answers to one transaction: an [IOError] with its
    text, or the data on the wire. *)
Inductive Reply :=
| IOError (cause : string)
| Ack (data : list Z).

Inductive Event :=
| EvCall (h : Hook) (arg : nat)                    (* pre_access(arg) is called *)
| EvCheck (t : nat) (ch : N) (cached : option N)   (* the cache comparison of a TCA *)
| EvBus (self : nat) (op : BusOp) (r : Reply).     (* a transaction made by [self] *)

(** [logging.debug] calls: the format of the call and its arguments. *)
Inductive LogRecord :=
| LogEnabling
| LogDisabling
| LogError (err_msg : string)
| LogWrote8 (val reg : Z)
| LogWrote16 (val reg reg1 : Z)
| LogWroteList (reg : Z)
| LogList (l : list Z)
| LogReturnedList (addr reg : Z)
| LogReturned8 (addr res reg : Z)
| LogReturned16 (addr res reg : Z).

Record State := mkState {
  enable_exceptions : bool;     (* I2CDevice._enable_exceptions *)
  heap : list Obj;
  script : list Reply;          (* the answers of the transport, in order *)
  trace : list Event;
  log : list LogRecord
}.

Definition set_exceptions (b : bool) (s : State) : State :=
  mkState b (heap s) (script s) (trace s) (log s).
Definition set_heap (h : list Obj) (s : State) : State :=
  mkState (enable_exceptions s) h (script s) (trace s) (log s).
Definition set_script (l : list Reply) (s : State) : State :=
  mkState (enable_exceptions s) (heap s) l (trace s) (log s).
Definition set_trace (t : list Event) (s : State) : State :=
  mkState (enable_exceptions s) (heap s) (script s) t (log s).
Definition set_log (l : list LogRecord) (s : State) : State :=
  mkState (enable_exceptions s) (heap s) (script s) (trace s) l.

(** ** The monad of methods *)

Inductive Result (A : Type) :=
| Ok (a : A)
| Raise (e : Exn)
| OutOfFuel.
Arguments Ok {A} a.
Arguments Raise {A} e.
Arguments OutOfFuel {A}.

Definition M (A : Type) : Type := State -> Result A * State.

Definition ret {A} (a : A) : M A := fun s => (Ok a, s).
Definition raise {A} (e : Exn) : M A := fun s => (Raise e, s).
Definition out_of_fuel {A} : M A := fun s => (OutOfFuel, s).
Definition bind {A B} (m : M A) (k : A -> M B) : M B :=
  fun s => match m s with
           | (Ok a, s') => k a s'
           | (Raise e, s') => (Raise e, s')
           | (OutOfFuel, s') => (OutOfFuel, s')
           end.

Notation "x <- m ;; k" := (bind m (fun x => k))
  (at level 62, m at next level, right associativity).
Notation "m ;;; k" := (bind m (fun _ => k))
  (at level 62, right associativity).

Definition emit (e : Event) : M unit :=
  fun s => (Ok tt, set_trace (trace s ++ [e]) s).
Definition logging_debug (r : LogRecord) : M unit :=
  fun s => (Ok tt, set_log (log s ++ [r]) s).
Definition when (b : bool) (m : M unit) : M unit := if b then m else ret tt.

Definition get_obj (id : nat) : M Obj :=
  fun s => match heap s !! id with
           | Some o => (Ok o, s)
           | None => (Raise AttributeError, s)
           end.
Definition put_obj (id : nat) (o : Obj) : M unit :=
  fun s => (Ok tt, set_heap (<[id := o]> (heap s)) s).
Definition alloc (o : Obj) : M nat :=
  fun s => (Ok (length (heap s)), set_heap (heap s ++ [o]) s).

(** One transaction: the transport consumes the next answer of the script
    (an exhausted script acknowledges with no data). *)
Definition transact (self : nat) (op : BusOp) : M Reply :=
  fun s => let r := hd (Ack []) (script s) in
           (Ok r, set_trace (trace s ++ [EvBus self op r]) (set_script (tl (script s)) s)).

(** The data an SMBus read hands back: a byte, a 16-bit word, a block of
    bytes. *)
Definition byte_of (data : list Z) : Z := hd 0 data mod 256.
Definition word_of (data : list Z) : Z := hd 0 data mod 65536.
Definition block_of (len : nat) (data : list Z) : list Z :=
  map (fun b => b mod 256) (take len data).

(** Attribute access on objects of the three classes. *)
Definition obj_pre_access (o : Obj) : option Hook :=
  match o with
  | ODevice d => Some (pre_access d)
  | OContainer c => Some (c_pre_access c)
  | OTCA t => Some (pre_access (base t))
  | OOther => None
  end.

Definition with_pre_access (h : Hook) (o : Obj) : Obj :=
  match o with
  | ODevice d => ODevice (mkDevice (address d) (debug d) h)
  | OContainer c => OContainer (mkContainer (c_attached_devices c) h)
  | OTCA t => OTCA (mkTCA (mkDevice (address (base t)) (debug (base t)) h)
                          (attached_devices t) (selected_channel t))
  | OOther => OOther
  end.

Definition set_pre_access (id : nat) (h : Hook) : M unit :=
  o <- get_obj id ;; put_obj id (with_pre_access h o).

Definition is_I2CDevice (o : Obj) : bool :=
  match o with ODevice _ | OTCA _ => true | _ => false end.
Definition is_I2CContainer (o : Obj) : bool :=
  match o with OContainer _ => true | _ => false end.

(** [isinstance(device, I2CDevice) or isinstance(device, I2CContainer)] *)
Definition isinstance_node (device : PyArg) : M bool :=
  fun s => match device with
           | ARef id => match heap s !! id with
                        | Some o => (Ok (is_I2CDevice o || is_I2CContainer o), s)
                        | None => (Ok false, s)
                        end
           | _ => (Ok false, s)
           end.

Definition callable (device : PyArg) : bool :=
  match device with AClass _ => true | _ => false end.

Definition get_device (self : nat) : M I2CDevice :=
  o <- get_obj self ;;
  match o with
  | ODevice d => ret d
  | OTCA t => ret (base t)
  | _ => raise AttributeError
  end.
Definition get_container (self : nat) : M I2CContainer :=
  o <- get_obj self ;;
  match o with OContainer c => ret c | _ => raise AttributeError end.
Definition get_tca (self : nat) : M TCA9548 :=
  o <- get_obj self ;;
  match o with OTCA t => ret t | _ => raise AttributeError end.

(** ** i2c_device.py *)

Definition ERROR : value := VInt (-1).

Definition enable_exceptions_cls : M unit :=
  logging_debug LogEnabling ;;; fun s => (Ok tt, set_exceptions true s).
Definition disable_exceptions_cls : M unit :=
  logging_debug LogDisabling ;;; fun s => (Ok tt, set_exceptions false s).

(** ['I2C {} error from device {:#x} register {:#x}: {}'.format(...)] *)
Definition err_msg_of (access_name : string) (addr register : Z) (error : string) : string :=
  ("I2C " ++ access_name ++ " error from device " ++ HexString.of_Z addr
     ++ " register " ++ HexString.of_Z register ++ ": " ++ error)%string.

Definition handle_error (self : nat) (access_name : string) (register : Z)
    (error : string) : M value :=
  d <- get_device self ;;
  let err_msg := err_msg_of access_name (address d) register error in
  fun s =>
    if enable_exceptions s then raise (I2CException (AccessError err_msg)) s
    else (when (debug d) (logging_debug (LogError err_msg)) ;;; ret ERROR) s.

Section Accessors.

(** The call of a bound method stored in [pre_access]; the knot is tied by
    [invoke] below. *)
Variable call : Hook -> nat -> M unit.

Definition call_hook (h : Hook) (arg : nat) : M unit :=
  emit (EvCall h arg) ;;; call h arg.

(** [if pre_access is not None: pre_access(arg)] *)
Definition call_if_set (h : Hook) (arg : nat) : M unit :=
  match h with
  | HookNone => ret tt
  | _ => call_hook h arg
  end.

Definition call_pre_access (func : nat -> M value) (_self : nat) : M value :=
  d <- get_device _self ;;
  call_if_set (pre_access d) _self ;;;
  func _self.

Definition write8_func (reg val : Z) (self : nat) : M value :=
  d <- get_device self ;;
  r <- transact self (WriteByteData (address d) reg val) ;;
  match r with
  | Ack _ => when (debug d) (logging_debug (LogWrote8 val reg)) ;;; ret VNone
  | IOError err => handle_error self "write8" reg err
  end.

Definition write16_func (reg val : Z) (self : nat) : M value :=
  d <- get_device self ;;
  r <- transact self (WriteWordData (address d) reg val) ;;
  match r with
  | Ack _ => when (debug d) (logging_debug (LogWrote16 val reg (reg + 1))) ;;; ret VNone
  | IOError err => handle_error self "write16" val err
  end.

Definition writeList_func (reg : Z) (l : list Z) (self : nat) : M value :=
  d <- get_device self ;;
  r <- transact self (WriteBlockData (address d) reg l) ;;
  match r with
  | Ack _ =>
      when (debug d) (logging_debug (LogWroteList reg) ;;; logging_debug (LogList l)) ;;;
      ret VNone
  | IOError err => handle_error self "writeList" reg err
  end.

Definition readList_func (reg : Z) (len : nat) (self : nat) : M value :=
  d <- get_device self ;;
  r <- transact self (ReadBlockData (address d) reg len) ;;
  match r with
  | Ack data =>
      let results := block_of len data in
      when (debug d)
        (logging_debug (LogReturnedList (address d) reg) ;;; logging_debug (LogList results)) ;;;
      ret (VList results)
  | IOError err => handle_error self "readList" reg err
  end.

Definition readU8_func (reg : Z) (self : nat) : M value :=
  d <- get_device self ;;
  r <- transact self (ReadByteData (address d) reg) ;;
  match r with
  | Ack data =>
      let result := byte_of data in
      when (debug d) (logging_debug (LogReturned8 (address d) (Z.land result 255) reg)) ;;;
      ret (VInt result)
  | IOError err => handle_error self "readU8" reg err
  end.

Definition readS8_func (reg : Z) (self : nat) : M value :=
  d <- get_device self ;;
  r <- transact self (ReadByteData (address d) reg) ;;
  match r with
  | Ack data =>
      let result := byte_of data in
      let result := if 127 <? result then result - 256 else result in
      when (debug d) (logging_debug (LogReturned8 (address d) (Z.land result 255) reg)) ;;;
      ret (VInt result)
  | IOError err => handle_error self "readS8" reg err
  end.

Definition readU16_func (reg : Z) (self : nat) : M value :=
  d <- get_device self ;;
  r <- transact self (ReadWordData (address d) reg) ;;
  match r with
  | Ack data =>
      let result := word_of data in
      when (debug d) (logging_debug (LogReturned16 (address d) (Z.land result 65535) reg)) ;;;
      ret (VInt result)
  | IOError err => handle_error self "readU16" reg err
  end.

Definition readS16_func (reg : Z) (self : nat) : M value :=
  d <- get_device self ;;
  r <- transact self (ReadWordData (address d) reg) ;;
  match r with
  | Ack data =>
      let result := word_of data in
      when (debug d) (logging_debug (LogReturned16 (address d) (Z.land result 65535) reg)) ;;;
      ret (VInt result)
  | IOError err => handle_error self "readS16" reg err
  end.

(** The eight decorated entry points. *)
Inductive Access :=
| Write8 (reg val : Z)
| Write16 (reg val : Z)
| WriteList (reg : Z) (l : list Z)
| ReadList (reg : Z) (len : nat)
| ReadU8 (reg : Z)
| ReadS8 (reg : Z)
| ReadU16 (reg : Z)
| ReadS16 (reg : Z).

Definition func_of (a : Access) : nat -> M value :=
  match a with
  | Write8 reg val => write8_func reg val
  | Write16 reg val => write16_func reg val
  | WriteList reg l => writeList_func reg l
  | ReadList reg len => readList_func reg len
  | ReadU8 reg => readU8_func reg
  | ReadS8 reg => readS8_func reg
  | ReadU16 reg => readU16_func reg
  | ReadS16 reg => readS16_func reg
  end.

Definition access (a : Access) (self : nat) : M value :=
  call_pre_access (func_of a) self.

Definition write8 (self : nat) (reg val : Z) : M value := access (Write8 reg val) self.
Definition write16 (self : nat) (reg val : Z) : M value := access (Write16 reg val) self.
Definition writeList (self : nat) (reg : Z) (l : list Z) : M value :=
  access (WriteList reg l) self.
Definition readList (self : nat) (reg : Z) (len : nat) : M value :=
  access (ReadList reg len) self.
Definition readU8 (self : nat) (reg : Z) : M value := access (ReadU8 reg) self.
Definition readS8 (self : nat) (reg : Z) : M value := access (ReadS8 reg) self.
Definition readU16 (self : nat) (reg : Z) : M value := access (ReadU16 reg) self.
Definition readS16 (self : nat) (reg : Z) : M value := access (ReadS16 reg) self.

(** [I2CDevice.__init__], [I2CContainer.__init__], [TCA9548.__init__] behind
    a constructor call. *)
Definition construct (k : Class) : M nat :=
  match k with
  | ClsI2CDevice addr dbg => alloc (ODevice (mkDevice addr dbg HookNone))
  | ClsI2CContainer => alloc (OContainer (mkContainer [] HookNone))
  | ClsTCA9548 addr dbg =>
      self <- alloc (OTCA (mkTCA (mkDevice addr dbg HookNone) ∅ None)) ;;
      write8 self 0 0 ;;;
      ret self
  | ClsOther => alloc OOther
  end.

(** ** i2c_container.py *)

Definition container_device_callback (self device : nat) : M unit :=
  c <- get_container self ;;
  call_if_set (c_pre_access c) self.

(** The part of [attach_device] that follows the constructor call. *)
Definition container_attach_instance (self : nat) (device : PyArg) : M nat :=
  ok <- isinstance_node device ;;
  match device, ok with
  | ARef id, true =>
      c <- get_container self ;;
      put_obj self (OContainer (mkContainer (c_attached_devices c ++ [id]) (c_pre_access c))) ;;;
      set_pre_access id (ContainerCallback self) ;;;
      ret id
  | _, _ => raise (I2CException (ContainerMustBeInstance device))
  end.

Definition container_attach_device (self : nat) (device : PyArg) : M nat :=
  device <- match device with
            | AClass k =>
                c <- get_container self ;;
                call_if_set (c_pre_access c) self ;;;
                id <- construct k ;; ret (ARef id)
            | _ => ret device
            end ;;
  container_attach_instance self device.

(** [list.remove]: the first occurrence goes. *)
Fixpoint list_remove (x : nat) (l : list nat) : list nat :=
  match l with
  | [] => []
  | y :: l' => if decide (x = y) then l' else y :: list_remove x l'
  end.

Definition container_remove_device (self : nat) (device : PyArg) : M unit :=
  c <- get_container self ;;
  match device with
  | ARef id =>
      if decide (id ∈ c_attached_devices c) then
        put_obj self (OContainer (mkContainer (list_remove id (c_attached_devices c))
                                              (c_pre_access c))) ;;;
        set_pre_access id HookNone
      else raise (I2CException (ContainerNotAttached device))
  | _ => raise (I2CException (ContainerNotAttached device))
  end.

(** ** tca9548.py *)

Definition set_selected_channel (self : nat) (c : option N) : M unit :=
  t <- get_tca self ;;
  put_obj self (OTCA (mkTCA (base t) (attached_devices t) c)).

Definition channel_of (t : TCA9548) (device : nat) : M N :=
  match attached_devices t !! device with
  | Some ch => ret ch
  | None => raise KeyError
  end.

Definition tca_device_callback (self device : nat) : M unit :=
  t <- get_tca self ;;
  match attached_devices t !! device with
  | None => raise (I2CException (NotProperlyDetached device))
  | Some _ =>
      call_if_set (pre_access (base t)) self ;;;
      t <- get_tca self ;;
      ch <- channel_of t device ;;
      emit (EvCheck self ch (selected_channel t)) ;;;
      if decide (Some ch = selected_channel t) then ret tt
      else
        set_selected_channel self (Some ch) ;;;
        write8 self 0 (Z.shiftl 1 (Z.of_N ch)) ;;;
        ret tt
  end.

(** The part of [attach_device] that follows the constructor call. *)
Definition tca_attach_instance (self : nat) (channel : N) (device : PyArg) : M nat :=
  ok <- isinstance_node device ;;
  match device, ok with
  | ARef id, true =>
      t <- get_tca self ;;
      put_obj self (OTCA (mkTCA (base t) (<[id := channel]> (attached_devices t))
                                (selected_channel t))) ;;;
      set_pre_access id (TCACallback self) ;;;
      ret id
  | _, _ => raise (I2CException (TCAMustBeInstance device))
  end.

Definition tca_attach_device (self : nat) (channel : N) (device : PyArg) : M nat :=
  device <- match device with
            | AClass k =>
                write8 self 0 (Z.shiftl 1 (Z.of_N channel)) ;;;
                set_selected_channel self (Some channel) ;;;
                id <- construct k ;; ret (ARef id)
            | _ => ret device
            end ;;
  tca_attach_instance self channel device.

Definition tca_remove_device (self : nat) (device : PyArg) : M unit :=
  t <- get_tca self ;;
  match device with
  | ARef id =>
      match attached_devices t !! id with
      | None => raise (I2CException (TCANotAttached device))
      | Some _ =>
          put_obj self (OTCA (mkTCA (base t) (delete id (attached_devices t))
                                    (selected_channel t))) ;;;
          set_pre_access id HookNone
      end
  | _ => raise (I2CException (TCANotAttached device))
  end.

End Accessors.

(** Calling what is stored in [pre_access].  [fuel] bounds the depth of
    nested callbacks. *)
Fixpoint invoke (fuel : nat) (h : Hook) (arg : nat) : M unit :=
  match fuel with
  | O => out_of_fuel
  | S n =>
      match h with
      | HookNone => raise TypeError
      | ContainerCallback c => container_device_callback (invoke n) c arg
      | TCACallback t => tca_device_callback (invoke n) t arg
      end
  end.

(** ** Observations used by the statements *)

(** The transaction an entry point makes on the device at [addr]. *)
Definition request_of (a : Access) (addr : Z) : BusOp :=
  match a with
  | Write8 reg val => WriteByteData addr reg val
  | Write16 reg val => WriteWordData addr reg val
  | WriteList reg l => WriteBlockData addr reg l
  | ReadList reg len => ReadBlockData addr reg len
  | ReadU8 reg | ReadS8 reg => ReadByteData addr reg
  | ReadU16 reg | ReadS16 reg => ReadWordData addr reg
  end.

(** The content of the control register of the multiplexer at [addr]
    according to the trace: the last acknowledged byte written to it. *)
Definition register_after (addr : Z) (acc : option Z) (e : Event) : option Z :=
  match e with
  | EvBus _ (WriteByteData a r v) (Ack _) =>
      if decide (a = addr /\ r = 0) then Some v else acc
  | _ => acc
  end.
Definition control_register (addr : Z) (tr : list Event) : option Z :=
  foldl (register_after addr) None tr.

(** The cache of a multiplexer agrees with its control register. *)
Definition cache_agrees (t : TCA9548) (tr : list Event) : Prop :=
  match selected_channel t with
  | None => True
  | Some ch => control_register (address (base t)) tr = Some (Z.shiftl 1 (Z.of_N ch))
  end.

(** The channel-select write of multiplexer [t] for channel [ch]. *)
Definition select_write (self : nat) (t : TCA9548) (ch : N) (r : Reply) : Event :=
  EvBus self (WriteByteData (address (base t)) 0 (Z.shiftl 1 (Z.of_N ch))) r.

Definition next_reply (s : State) : Reply := hd (Ack []) (script s).

(** The device part of an object: an I2CDevice, or the base of a TCA9548. *)
Definition device_of (o : Obj) : option I2CDevice :=
  match o with
  | ODevice d => Some d
  | OTCA t => Some (base t)
  | _ => None
  end.
Definition device_at (s : State) (id : nat) : option I2CDevice :=
  heap s !! id ≫= device_of.
Definition hook_at (s : State) (id : nat) : option Hook :=
  heap s !! id ≫= obj_pre_access.

(** What a parent holds: the members of a container, the keys of the
    channel map of a multiplexer. *)
Definition holds (o : Obj) (x : nat) : Prop :=
  match o with
  | OContainer c => x ∈ c_attached_devices c
  | OTCA t => is_Some (attached_devices t !! x)
  | _ => False
  end.



Definition same_kind (o o' : Obj) : Prop :=
  match o, o' with
  | ODevice _, ODevice _ | OContainer _, OContainer _ | OTCA _, OTCA _
  | OOther, OOther => True
  | _, _ => False
  end.



(** An object without the cached channel: what callbacks and accesses
    never change. *)
Definition skeleton (o : Obj) : Obj :=
  match o with
  | OTCA t => OTCA (mkTCA (base t) (attached_devices t) None)
  | _ => o
  end.

(** From [s] to [s']: the flag and the objects are the same up to cached
    channels, and the trace has only grown. *)
Definition same_tree (s s' : State) : Prop :=
  enable_exceptions s' = enable_exceptions s
  /\ skeleton <$> heap s' = skeleton <$> heap s
  /\ exists evs, trace s' = trace s ++ evs.

(** A computation that never leaves the tree it starts in. *)
Definition Steady {A} (m : M A) : Prop :=
  forall s r s', m s = (r, s') -> same_tree s s'.




(** From [s] to [s'] every object is still there and no parent has lost a
    member. *)
Definition grows (s s' : State) : Prop :=
  forall p o, heap s !! p = Some o ->
    exists o', heap s' !! p = Some o' /\ same_kind o o' /\ forall x, holds o x -> holds o' x.

Definition is_node (o : Obj) : bool := is_I2CDevice o || is_I2CContainer o.

(** Attach and detach calls, and a client that makes them one after the
    other, going on after a call that raised. *)
Inductive StructOp :=
| ContainerAttach (c : nat) (device : PyArg)
| ContainerRemove (c : nat) (device : PyArg)
| TCAAttach (t : nat) (channel : N) (device : PyArg)
| TCARemove (t : nat) (device : PyArg).

Definition run_op (fuel : nat) (op : StructOp) : M unit :=
  match op with
  | ContainerAttach c device => container_attach_device (invoke fuel) c device ;;; ret tt
  | ContainerRemove c device => container_remove_device c device
  | TCAAttach t channel device => tca_attach_device (invoke fuel) t channel device ;;; ret tt
  | TCARemove t device => tca_remove_device t device
  end.

Definition run_ops (fuel : nat) (ops : list StructOp) (s : State) : State :=
  foldl (fun s op => (run_op fuel op s).2) s ops.

(** Whether a returned value is the error sentinel. *)
Definition is_ERROR (v : value) : bool :=
  match v with VInt z => z =? -1 | _ => false end.

(** The outcome of the transaction of an entry point, read off the answer
    of the transport. *)
Definition access_name (a : Access) : string :=
  match a with
  | Write8 _ _ => "write8"
  | Write16 _ _ => "write16"
  | WriteList _ _ => "writeList"
  | ReadList _ _ => "readList"
  | ReadU8 _ => "readU8"
  | ReadS8 _ => "readS8"
  | ReadU16 _ => "readU16"
  | ReadS16 _ => "readS16"
  end.

Definition register_of (a : Access) : Z :=
  match a with
  | Write8 reg _ | Write16 reg _ | WriteList reg _ | ReadList reg _
  | ReadU8 reg | ReadS8 reg | ReadU16 reg | ReadS16 reg => reg
  end.

(** What [handle_error] is given as the register. *)
Definition reported_register (a : Access) : Z :=
  match a with
  | Write16 _ val => val
  | _ => register_of a
  end.

Definition success_value (a : Access) (data : list Z) : value :=
  match a with
  | Write8 _ _ | Write16 _ _ | WriteList _ _ => VNone
  | ReadList _ len => VList (block_of len data)
  | ReadU8 _ => VInt (byte_of data)
  | ReadS8 _ => VInt (if 127 <? byte_of data then byte_of data - 256 else byte_of data)
  | ReadU16 _ | ReadS16 _ => VInt (word_of data)
  end.

Definition outcome (a : Access) (d : I2CDevice) (exc : bool) (r : Reply) : Result value :=
  match r with
  | Ack data => Ok (success_value a data)
  | IOError cause =>
      if exc
      then Raise (I2CException
                    (AccessError (err_msg_of (access_name a) (address d)
                                             (reported_register a) cause)))
      else Ok ERROR
  end.

Definition after_transact (self : nat) (op : BusOp) (s : State) : State :=
  set_trace (trace s ++ [EvBus self op (next_reply s)]) (set_script (tl (script s)) s).

(** What [__device_callback] does once the device is known to be on
    channel [ch] and the upstream callback has returned: the cache check
    and, on a miss, the update of the cache and the select write. *)
Definition tca_select (call : Hook -> nat -> M unit) (self : nat) (ch : N) : M unit :=
  t <- get_tca self ;;
  emit (EvCheck self ch (selected_channel t)) ;;;
  if decide (Some ch = selected_channel t) then ret tt
  else
    set_selected_channel self (Some ch) ;;;
    write8 call self 0 (Z.shiftl 1 (Z.of_N ch)) ;;;
    ret tt.

(** The state in which the select write is made: the check is in the trace
    and the cache already holds the new channel. *)
Definition cache_set (self : nat) (t : TCA9548) (ch : N) (s : State) : State :=
  set_heap (<[self := OTCA (mkTCA (base t) (attached_devices t) (Some ch))]> (heap s))
           (set_trace (trace s ++ [EvCheck self ch (selected_channel t)]) s).

(** ** Example device trees *)

(** A container at 0 holding the device at 1, a free device at 2 and a
    multiplexer at 3 with the device at 4 on channel 2. *)
Definition tree1 (exc : bool) (answers : list Reply) : State :=
  mkState exc
    [OContainer (mkContainer [1%nat] HookNone);
     ODevice (mkDevice 32 false (ContainerCallback 0));
     ODevice (mkDevice 33 true HookNone);
     OTCA (mkTCA (mkDevice 112 false HookNone) {[4%nat := 2%N]} None);
     ODevice (mkDevice 80 false (TCACallback 3))]
    answers [] [].

(** Two containers at 0 and 1, a device at 2 and a multiplexer at 3. *)
Definition parents0 : State :=
  mkState false
    [OContainer (mkContainer [] HookNone);
     OContainer (mkContainer [] HookNone);
     ODevice (mkDevice 32 false HookNone);
     OTCA (mkTCA (mkDevice 112 false HookNone) ∅ None)]
    [] [] [].

(** The device attached to container 0, then to container 1. *)
Definition two_containers : State :=
  run_ops 0 [ContainerAttach 0 (ARef 2); ContainerAttach 1 (ARef 2)] parents0.

(** The device attached to the multiplexer, then to container 1. *)
Definition tca_then_container : State :=
  run_ops 0 [TCAAttach 3 5 (ARef 2); ContainerAttach 1 (ARef 2)] parents0.

(** A multiplexer at 0 with a second multiplexer at 1 on its channel 1, and
    a device at 2 on channel 3 of the second one. *)
Definition chain_tree (exc : bool) (answers : list Reply) : State :=
  mkState exc
    [OTCA (mkTCA (mkDevice 112 false HookNone) {[1%nat := 1%N]} None);
     OTCA (mkTCA (mkDevice 113 false (TCACallback 0)) {[2%nat := 3%N]} None);
     ODevice (mkDevice 80 false (TCACallback 1))]
    answers [] [].

(** A multiplexer at 0 right after its construction (the write of 0 is in
    the trace) with the device at 1 attached on channel 2. *)
Definition fresh_mux (exc : bool) (answers : list Reply) : State :=
  mkState exc
    [OTCA (mkTCA (mkDevice 112 false HookNone) {[1%nat := 2%N]} None);
     ODevice (mkDevice 80 false (TCACallback 0))]
    answers [EvBus 0 (WriteByteData 112 0 0) (Ack [])] [].

(** ** Tactics for running the monad *)

Ltac munfold :=
  unfold access, call_pre_access, call_if_set, call_hook, func_of,
    write8_func, write16_func, writeList_func, readList_func,
    readU8_func, readS8_func, readU16_func, readS16_func,
    handle_error, get_device, get_container, get_tca, set_pre_access,
    set_selected_channel, channel_of, transact, when, logging_debug,
    get_obj, put_obj, alloc, emit, isinstance_node,
    bind, ret, raise, out_of_fuel in *.

(** ** detach of a node that is not a member *)

Lemma container_remove_not_member s self C x :
  heap s !! self = Some (OContainer C) ->
  (forall id, x = ARef id -> id ∉ c_attached_devices C) ->
  container_remove_device self x s = (Raise (I2CException (ContainerNotAttached x)), s).
Proof.
  intros Ho Hx. unfold container_remove_device. munfold. rewrite Ho.
  destruct x as [id| |]; try reflexivity.
  destruct (decide (id ∈ c_attached_devices C)) as [Hin|]; [|reflexivity].
  exfalso. by apply (Hx id).
Qed.

Lemma tca_remove_not_member s self T x :
  heap s !! self = Some (OTCA T) ->
  (forall id, x = ARef id -> attached_devices T !! id = None) ->
  tca_remove_device self x s = (Raise (I2CException (TCANotAttached x)), s).
Proof.
  intros Ho Hx. unfold tca_remove_device. munfold. rewrite Ho.
  destruct x as [id| |]; try reflexivity.
  by rewrite (Hx id eq_refl).
Qed.

(** C7: [remove_device(x)] on a container or a multiplexer that does not
    hold [x] raises the not-attached error and leaves the whole state as it
    was: members, channel map, cached channel and every hook. *)
Theorem remove_device_not_member (s : State) (self : nat) (x : PyArg) :
  (forall C, heap s !! self = Some (OContainer C) ->
     (forall id, x = ARef id -> id ∉ c_attached_devices C) ->
     container_remove_device self x s = (Raise (I2CException (ContainerNotAttached x)), s))
  /\
  (forall T, heap s !! self = Some (OTCA T) ->
     (forall id, x = ARef id -> attached_devices T !! id = None) ->
     tca_remove_device self x s = (Raise (I2CException (TCANotAttached x)), s)).
Proof.
  split; intros o Ho Hx.
  - by apply container_remove_not_member with o.
  - by apply tca_remove_not_member with o.
Qed.

Lemma remove_device_not_member_witness :
  container_remove_device 0 (ARef 2) (tree1 false [])
    = (Raise (I2CException (ContainerNotAttached (ARef 2))), tree1 false [])
  /\ tca_remove_device 3 (ARef 2) (tree1 false [])
    = (Raise (I2CException (TCANotAttached (ARef 2))), tree1 false []).
Proof.
  split.
  - eapply (proj1 (remove_device_not_member (tree1 false []) 0 (ARef 2))).
    + reflexivity.
    + intros id Hid. inversion Hid. simpl. intros Hin. apply list_elem_of_In in Hin. simpl in Hin. intuition lia.
  - eapply (proj2 (remove_device_not_member (tree1 false []) 3 (ARef 2))).
    + reflexivity.
    + intros id Hid. inversion Hid. reflexivity.
Defined.

(** ** The access primitives *)

Lemma get_device_ok s self d :
  device_at s self = Some d -> get_device self s = (Ok d, s).
Proof.
  unfold device_at, get_device, get_obj, bind. intros H.
  destruct (heap s !! self) as [[]|]; simpl in H; by simplify_eq.
Qed.

Lemma get_device_fail s self :
  device_at s self = None -> get_device self s = (Raise AttributeError, s).
Proof.
  unfold device_at, get_device, get_obj, bind. intros H.
  destruct (heap s !! self) as [[]|]; simpl in H; by simplify_eq.
Qed.

Lemma handle_error_run s self d name reg cause :
  device_at s self = Some d ->
  exists lg,
    handle_error self name reg cause s
    = (if enable_exceptions s
       then Raise (I2CException (AccessError (err_msg_of name (address d) reg cause)))
       else Ok ERROR,
       set_log lg s).
Proof.
  intros Hd. unfold handle_error, bind. rewrite (get_device_ok _ _ _ Hd).
  destruct s as [exc hp sc tr lg]. cbn.
  destruct exc; [by exists lg|].
  destruct (debug d); cbn; eauto.
Qed.

(** The transaction of an entry point in closed form. *)
Lemma func_of_run a self s d :
  device_at s self = Some d ->
  exists lg,
    func_of a self s
    = (outcome a d (enable_exceptions s) (next_reply s),
       set_log lg (after_transact self (request_of a (address d)) s)).
Proof.
  intros Hd.
  assert (Hd' : forall op, device_at (after_transact self op s) self = Some d) by done.
  destruct a; unfold func_of, write8_func, write16_func, writeList_func, readList_func,
    readU8_func, readS8_func, readU16_func, readS16_func, bind;
    rewrite (get_device_ok _ _ _ Hd); unfold transact; fold (next_reply s);
    match goal with
    | |- context [EvBus self ?op _] => fold (after_transact self op s); specialize (Hd' op)
    end;
    (destruct (next_reply s) as [cause|data]; cbn [outcome];
     [ match goal with
       | |- context [handle_error self ?n ?r cause _] =>
           destruct (handle_error_run _ _ _ n r cause Hd') as [lg ->]
       end; by exists lg
     | destruct (debug d); cbn; eauto ]).
Qed.

Lemma access_unhooked call a self s d :
  device_at s self = Some d -> pre_access d = HookNone ->
  access call a self s = func_of a self s.
Proof.
  intros Hd Hh. unfold access, call_pre_access, bind.
  by rewrite (get_device_ok _ _ _ Hd), Hh.
Qed.

Lemma word_of_range data : 0 <= word_of data < 65536.
Proof. unfold word_of. apply Z.mod_pos_bound. lia. Qed.

Lemma byte_of_range data : 0 <= byte_of data < 256.
Proof. unfold byte_of. apply Z.mod_pos_bound. lia. Qed.

(** C10: [readS16] gives back what [readU16] gives back, in every state and
    for every register: the same returned value, an exception exactly when
    the other raises one, and the same objects, bus and trace afterwards.
    An acknowledged transaction returns the 16-bit word as it is, with no
    sign extension, so never a negative number. *)
Theorem readS16_is_readU16 (call : Hook -> nat -> M unit) (self : nat) (reg : Z) (s : State) :
  let a := readS16 call self reg s in
  let b := readU16 call self reg s in
  ((forall v, a.1 = Ok v <-> b.1 = Ok v)
   /\ (forall e, a.1 = Raise e -> exists e', b.1 = Raise e')
   /\ (forall e, b.1 = Raise e -> exists e', a.1 = Raise e')
   /\ enable_exceptions a.2 = enable_exceptions b.2
   /\ heap a.2 = heap b.2 /\ script a.2 = script b.2 /\ trace a.2 = trace b.2)
  /\ (forall d data, device_at s self = Some d -> next_reply s = Ack data ->
        (readS16_func reg self s).1 = Ok (VInt (word_of data))
        /\ (readU16_func reg self s).1 = Ok (VInt (word_of data))
        /\ 0 <= word_of data < 65536).
Proof.
  split.
  - unfold readS16, readU16, access, call_pre_access, bind.
    destruct (get_device self s) as [[d|e|] s1]; cbn; try naive_solver.
    destruct (call_if_set call (pre_access d) self s1) as [[[]|e|] s2]; cbn;
      try naive_solver.
    destruct (device_at s2 self) as [d2|] eqn:Hd.
    + destruct (func_of_run (ReadS16 reg) self s2 d2 Hd) as [lgs Hs].
      destruct (func_of_run (ReadU16 reg) self s2 d2 Hd) as [lgu Hu].
      cbn in Hs, Hu. rewrite Hs, Hu. cbn.
      destruct (next_reply s2); cbn; [|naive_solver].
      destruct (enable_exceptions s2); cbn; naive_solver.
    + unfold readS16_func, readU16_func, bind.
      rewrite (get_device_fail _ _ Hd). cbn. naive_solver.
  - intros d data Hd Hr.
    destruct (func_of_run (ReadS16 reg) self s d Hd) as [lgs Hs].
    destruct (func_of_run (ReadU16 reg) self s d Hd) as [lgu Hu].
    cbn in Hs, Hu. rewrite Hs, Hu, Hr. cbn. auto using word_of_range.
Qed.

Lemma readS16_is_readU16_witness :
  (readS16_func 3 2 (tree1 false [Ack [65535]])).1 = Ok (VInt 65535)
  /\ (readU16_func 3 2 (tree1 false [Ack [65535]])).1 = Ok (VInt 65535).
Proof.
  destruct (proj2 (readS16_is_readU16 (invoke 0) 2 3 (tree1 false [Ack [65535]]))
              (mkDevice 33 true HookNone) [65535] eq_refl eq_refl) as (Ha & Hb & _).
  split; [exact Ha | exact Hb].
Defined.

(** C6: with exceptions enabled, a failed [write16] raises an error whose
    text names the operation, the address of the device and the cause, but
    puts the value that was being written where the register belongs. *)
Theorem write16_error_reports_value (call : Hook -> nat -> M unit) (self : nat)
    (reg val : Z) (s : State) (d : I2CDevice) (cause : string) :
  device_at s self = Some d -> pre_access d = HookNone ->
  enable_exceptions s = true -> next_reply s = IOError cause ->
  (write16 call self reg val s).1
    = Raise (I2CException (AccessError (err_msg_of "write16" (address d) val cause))).
Proof.
  intros Hd Hh He Hr. unfold write16. rewrite (access_unhooked _ _ _ _ d Hd Hh).
  destruct (func_of_run (Write16 reg val) self s d Hd) as [lg ->].
  cbn. by rewrite Hr, He.
Qed.

Lemma write16_error_reports_value_witness :
  (write16 (invoke 0) 2 16 4660 (tree1 true [IOError "[Errno 5] Input/output error"])).1
    = Raise (I2CException (AccessError
        "I2C write16 error from device 0x21 register 0x1234: [Errno 5] Input/output error")).
Proof.
  exact (write16_error_reports_value (invoke 0) 2 16 4660
           (tree1 true [IOError "[Errno 5] Input/output error"])
           (mkDevice 33 true HookNone) "[Errno 5] Input/output error"%string
           eq_refl eq_refl eq_refl eq_refl).
Defined.

(** The other seven entry points report the register they were called
    with. *)
Lemma access_error_reports_register (a : Access) (self : nat) (s : State)
    (d : I2CDevice) (cause : string) :
  device_at s self = Some d ->
  enable_exceptions s = true -> next_reply s = IOError cause ->
  (forall reg val, a <> Write16 reg val) ->
  (func_of a self s).1
  = Raise (I2CException
             (AccessError (err_msg_of (access_name a) (address d) (register_of a) cause))).
Proof.
  intros Hd He Hr Ha.
  destruct (func_of_run a self s d Hd) as [lg ->]. cbn. rewrite Hr, He. cbn.
  destruct a; try reflexivity. by destruct (Ha reg val).
Qed.

(** A read of the byte 0xFF through [readS8] succeeds and returns what a
    failed [readS8] returns. *)
Lemma readS8_success_returns_sentinel :
  next_reply (tree1 false [Ack [255]]) = Ack [255]
  /\ next_reply (tree1 false [IOError "[Errno 5] Input/output error"])
     = IOError "[Errno 5] Input/output error"
  /\ (readS8 (invoke 0) 2 3 (tree1 false [Ack [255]])).1
     = (readS8 (invoke 0) 2 3 (tree1 false [IOError "[Errno 5] Input/output error"])).1.
Proof. repeat split. Qed.

(** C9, as the code has it: with exceptions disabled a failed transaction
    returns [ERROR], and an acknowledged transaction returns something else,
    except that an acknowledged [readS8] of the byte 0xFF returns [ERROR]
    too. *)
Theorem sentinel_distinguished_except_readS8 (a : Access) (self : nat) (s : State)
    (d : I2CDevice) :
  device_at s self = Some d -> enable_exceptions s = false ->
  (forall cause, next_reply s = IOError cause -> (func_of a self s).1 = Ok ERROR)
  /\ (forall data, next_reply s = Ack data ->
        exists v, (func_of a self s).1 = Ok v
                  /\ (v = ERROR <-> exists reg, a = ReadS8 reg /\ byte_of data = 255)).
Proof.
  intros Hd He. destruct (func_of_run a self s d Hd) as [lg ->]. cbn. rewrite He.
  split; [by intros cause ->|]. intros data ->. cbn. eexists; split; [reflexivity|].
  pose proof (byte_of_range data). pose proof (word_of_range data).
  unfold ERROR. destruct a; cbn; try (split; [intros ?; simplify_eq | intros (? & ? & ?); simplify_eq]); try lia.
  - destruct (Z.ltb_spec 127 (byte_of data)); simplify_eq; try lia.
    assert (byte_of data = 255) by lia. eauto.
  - destruct (Z.ltb_spec 127 (byte_of data)); [f_equal; lia | lia].
Qed.

Lemma sentinel_distinguished_except_readS8_witness :
  (func_of (ReadS16 3) 2 (tree1 false [IOError "[Errno 5] Input/output error"])).1 = Ok ERROR
  /\ exists v, (func_of (ReadS16 3) 2 (tree1 false [Ack [65535]])).1 = Ok v
               /\ (v = ERROR <-> exists reg, ReadS16 3 = ReadS8 reg /\ byte_of [65535] = 255).
Proof.
  split.
  - exact (proj1 (sentinel_distinguished_except_readS8 (ReadS16 3) 2
                    (tree1 false [IOError "[Errno 5] Input/output error"])
                    (mkDevice 33 true HookNone) eq_refl eq_refl)
             "[Errno 5] Input/output error"%string eq_refl).
  - exact (proj2 (sentinel_distinguished_except_readS8 (ReadS16 3) 2
                    (tree1 false [Ack [65535]])
                    (mkDevice 33 true HookNone) eq_refl eq_refl)
             [65535] eq_refl).
Defined.

(** ** Structural errors *)

Lemma tca_callback_absent call s t T dev :
  heap s !! t = Some (OTCA T) -> attached_devices T !! dev = None ->
  tca_device_callback call t dev s = (Raise (I2CException (NotProperlyDetached dev)), s).
Proof. intros Ho Hd. unfold tca_device_callback. munfold. by rewrite Ho, Hd. Qed.

Lemma isinstance_node_state device s : (isinstance_node device s).2 = s.
Proof.
  unfold isinstance_node. destruct device; try done. by destruct (heap s !! id).
Qed.

Lemma container_attach_not_node call s self device :
  callable device = false -> (isinstance_node device s).1 = Ok false ->
  container_attach_device call self device s
  = (Raise (I2CException (ContainerMustBeInstance device)), s).
Proof.
  intros Hc Hi. unfold container_attach_device, container_attach_instance.
  assert (E : isinstance_node device s = (Ok false, s)).
  { pose proof (isinstance_node_state device s) as Hs.
    destruct (isinstance_node device s) as [r s']; cbn in *; by simplify_eq. }
  destruct device as [id|k|]; try done; unfold bind, ret; by rewrite E.
Qed.

Lemma tca_attach_not_node call s self channel device :
  callable device = false -> (isinstance_node device s).1 = Ok false ->
  tca_attach_device call self channel device s
  = (Raise (I2CException (TCAMustBeInstance device)), s).
Proof.
  intros Hc Hi. unfold tca_attach_device, tca_attach_instance.
  assert (E : isinstance_node device s = (Ok false, s)).
  { pose proof (isinstance_node_state device s) as Hs.
    destruct (isinstance_node device s) as [r s']; cbn in *; by simplify_eq. }
  destruct device as [id|k|]; try done; unfold bind, ret; by rewrite E.
Qed.

Lemma container_attach_other_class call s self id :
  (container_attach_device call self (AClass ClsOther) s).1 <> Ok id.
Proof.
  unfold container_attach_device, container_attach_instance, bind.
  destruct (get_container self s) as [[c|e|] s1]; cbn; try done.
  destruct (call_if_set call (c_pre_access c) self s1) as [[[]|e|] s2]; cbn; try done.
  by rewrite list_lookup_middle.
Qed.

Lemma tca_attach_other_class call s self channel id :
  (tca_attach_device call self channel (AClass ClsOther) s).1 <> Ok id.
Proof.
  unfold tca_attach_device, tca_attach_instance, bind.
  destruct (write8 call self 0 _ s) as [[v|e|] s1]; cbn; try done.
  destruct (set_selected_channel self (Some channel) s1) as [[[]|e|] s2]; cbn; try done.
  by rewrite list_lookup_middle.
Qed.

(** C4: whatever the exceptions flag is set to, attaching a value that is
    neither an I2CDevice nor an I2CContainer, detaching a device that is not
    attached, and a dispatch for a node that is not in the channel map of
    the multiplexer all raise; the flag only decides whether a failed bus
    transaction raises or returns [ERROR]. *)
Theorem structural_errors_always_raise (call : Hook -> nat -> M unit) (exc : bool)
    (s0 : State) (self : nat) :
  let s := set_exceptions exc s0 in
  (forall device, callable device = false -> (isinstance_node device s).1 = Ok false ->
     container_attach_device call self device s
       = (Raise (I2CException (ContainerMustBeInstance device)), s)
     /\ forall channel, tca_attach_device call self channel device s
       = (Raise (I2CException (TCAMustBeInstance device)), s))
  /\ (forall id channel,
        (container_attach_device call self (AClass ClsOther) s).1 <> Ok id
        /\ (tca_attach_device call self channel (AClass ClsOther) s).1 <> Ok id)
  /\ (forall C x, heap s !! self = Some (OContainer C) ->
        (forall id, x = ARef id -> id ∉ c_attached_devices C) ->
        container_remove_device self x s
          = (Raise (I2CException (ContainerNotAttached x)), s))
  /\ (forall T x, heap s !! self = Some (OTCA T) ->
        (forall id, x = ARef id -> attached_devices T !! id = None) ->
        tca_remove_device self x s = (Raise (I2CException (TCANotAttached x)), s))
  /\ (forall T dev, heap s !! self = Some (OTCA T) -> attached_devices T !! dev = None ->
        tca_device_callback call self dev s
          = (Raise (I2CException (NotProperlyDetached dev)), s))
  /\ (forall a d cause, device_at s self = Some d -> next_reply s = IOError cause ->
        (func_of a self s).1
        = if exc
          then Raise (I2CException
                        (AccessError (err_msg_of (access_name a) (address d)
                                                 (reported_register a) cause)))
          else Ok ERROR).
Proof.
  intros s. repeat split.
  - by apply container_attach_not_node.
  - intros channel. by apply tca_attach_not_node.
  - apply container_attach_other_class.
  - apply tca_attach_other_class.
  - intros C x. apply container_remove_not_member.
  - intros T x. apply tca_remove_not_member.
  - intros T dev. apply tca_callback_absent.
  - intros a d cause Hd Hr. destruct (func_of_run a self s d Hd) as [lg ->].
    cbn. by rewrite Hr.
Qed.

Lemma structural_errors_always_raise_witness :
  let s := set_exceptions false (tree1 true [IOError "[Errno 5] Input/output error"]) in
  container_attach_device (invoke 0) 0 AOther s
    = (Raise (I2CException (ContainerMustBeInstance AOther)), s)
  /\ container_remove_device 0 (ARef 2) s
    = (Raise (I2CException (ContainerNotAttached (ARef 2))), s)
  /\ tca_remove_device 3 (ARef 2) s = (Raise (I2CException (TCANotAttached (ARef 2))), s)
  /\ tca_device_callback (invoke 0) 3 2 s
    = (Raise (I2CException (NotProperlyDetached 2)), s)
  /\ (func_of (Write8 0 4) 3 s).1 = Ok ERROR.
Proof.
  pose (s0 := tree1 true [IOError "[Errno 5] Input/output error"]).
  destruct (structural_errors_always_raise (invoke 0) false s0 0) as (Ha & _ & Hr & _).
  destruct (structural_errors_always_raise (invoke 0) false s0 3) as (_ & _ & _ & Ht & Hc & Hf).
  refine (conj _ (conj _ (conj _ (conj _ _)))).
  - exact (proj1 (Ha AOther eq_refl eq_refl)).
  - apply (Hr (mkContainer [1%nat] HookNone)); [reflexivity|].
    intros id Hid. inversion Hid. simpl. intros Hin.
    apply list_elem_of_In in Hin. simpl in Hin. intuition lia.
  - apply (Ht (mkTCA (mkDevice 112 false HookNone) {[4%nat := 2%N]} None)); [reflexivity|].
    intros id Hid. inversion Hid. reflexivity.
  - exact (Hc (mkTCA (mkDevice 112 false HookNone) {[4%nat := 2%N]} None) 2%nat
              eq_refl eq_refl).
  - exact (Hf (Write8 0 4) (mkDevice 112 false HookNone)
              "[Errno 5] Input/output error"%string eq_refl eq_refl).
Defined.

(** ** detach of a member *)

Lemma obj_pre_access_with h o :
  is_Some (obj_pre_access o) -> obj_pre_access (with_pre_access h o) = Some h.
Proof. destruct o; cbn; try done; by intros [? ?]. Qed.

Lemma set_pre_access_run s id h o :
  heap s !! id = Some o ->
  set_pre_access id h s = (Ok tt, set_heap (<[id := with_pre_access h o]> (heap s)) s).
Proof. intros Ho. unfold set_pre_access, get_obj, put_obj, bind. by rewrite Ho. Qed.


(** Container 0 still lists the device, whose hook belongs to container 1;
    [remove_device] on container 0 returns and clears that hook.  The same
    happens with the multiplexer. *)
Lemma remove_device_clears_foreign_hook :
  (heap two_containers !! 0%nat = Some (OContainer (mkContainer [2%nat] HookNone))
   /\ hook_at two_containers 2 = Some (ContainerCallback 1)
   /\ (container_remove_device 0 (ARef 2) two_containers).1 = Ok tt
   /\ hook_at (container_remove_device 0 (ARef 2) two_containers).2 2 = Some HookNone)
  /\ (exists T, heap tca_then_container !! 3%nat = Some (OTCA T)
                /\ attached_devices T !! 2%nat = Some 5%N)
  /\ hook_at tca_then_container 2 = Some (ContainerCallback 1)
  /\ (tca_remove_device 3 (ARef 2) tca_then_container).1 = Ok tt
  /\ hook_at (tca_remove_device 3 (ARef 2) tca_then_container).2 2 = Some HookNone.
Proof.
  repeat split. eexists. split; reflexivity.
Qed.

(** C5, as the code has it: [remove_device] of a member returns normally,
    takes the node out of the member list (its first occurrence) or out of
    the channel map, and sets the hook of the node to None, whichever parent
    the hook belonged to. *)
Theorem remove_device_member (s : State) (self id : nat) (h : Hook) :
  hook_at s id = Some h ->
  (forall C, heap s !! self = Some (OContainer C) -> id ∈ c_attached_devices C ->
     let r := container_remove_device self (ARef id) s in
     r.1 = Ok tt /\ hook_at r.2 id = Some HookNone
     /\ exists C', heap r.2 !! self = Some (OContainer C')
                   /\ c_attached_devices C' = list_remove id (c_attached_devices C))
  /\
  (forall T ch, heap s !! self = Some (OTCA T) -> attached_devices T !! id = Some ch ->
     let r := tca_remove_device self (ARef id) s in
     r.1 = Ok tt /\ hook_at r.2 id = Some HookNone
     /\ exists T', heap r.2 !! self = Some (OTCA T')
                   /\ attached_devices T' = delete id (attached_devices T)
                   /\ selected_channel T' = selected_channel T).
Proof.
  intros Hh. unfold hook_at in Hh.
  destruct (heap s !! id) as [o|] eqn:Hid; [|done]. cbn in Hh.
  assert (Hlt : (id < length (heap s))%nat) by (by eapply lookup_lt_Some).
  split.
  - intros C Hself Hin r. subst r. unfold container_remove_device, get_container, bind, get_obj.
    rewrite Hself. cbn. rewrite decide_True by done.
    unfold put_obj. cbn.
    destruct (decide (id = self)) as [->|Hne].
    + erewrite set_pre_access_run
        by (cbn; apply list_lookup_insert_eq; by eapply lookup_lt_Some).
      cbn. split; [done|]. unfold hook_at. cbn.
      rewrite list_insert_insert_eq, list_lookup_insert_eq by done.
      split; [done|]. by eexists.
    + erewrite set_pre_access_run
        by (cbn; rewrite list_lookup_insert_ne by done; exact Hid).
      cbn. split; [done|]. unfold hook_at. cbn.
      rewrite list_lookup_insert_eq by (by rewrite length_insert).
      cbn. split; [by apply obj_pre_access_with|].
      rewrite list_lookup_insert_ne by done.
      rewrite list_lookup_insert_eq by (by eapply lookup_lt_Some). by eexists.
  - intros T ch Hself Hin r. subst r. unfold tca_remove_device, get_tca, bind, get_obj.
    rewrite Hself. cbn. rewrite Hin.
    unfold put_obj. cbn.
    destruct (decide (id = self)) as [->|Hne].
    + erewrite set_pre_access_run
        by (cbn; apply list_lookup_insert_eq; by eapply lookup_lt_Some).
      cbn. split; [done|]. unfold hook_at. cbn.
      rewrite list_insert_insert_eq, list_lookup_insert_eq by done.
      split; [done|]. by eexists.
    + erewrite set_pre_access_run
        by (cbn; rewrite list_lookup_insert_ne by done; exact Hid).
      cbn. split; [done|]. unfold hook_at. cbn.
      rewrite list_lookup_insert_eq by (by rewrite length_insert).
      cbn. split; [by apply obj_pre_access_with|].
      rewrite list_lookup_insert_ne by done.
      rewrite list_lookup_insert_eq by (by eapply lookup_lt_Some). by eexists.
Qed.

(** ** Callbacks and accesses stay in the tree *)

Lemma same_tree_refl s : same_tree s s.
Proof. repeat split. exists []. by rewrite app_nil_r. Qed.

Lemma same_tree_trans s1 s2 s3 : same_tree s1 s2 -> same_tree s2 s3 -> same_tree s1 s3.
Proof.
  intros (He1 & Hh1 & evs1 & Ht1) (He2 & Hh2 & evs2 & Ht2). repeat split.
  - congruence.
  - congruence.
  - exists (evs1 ++ evs2). by rewrite Ht2, Ht1, app_assoc.
Qed.

Lemma steady_ret {A} (a : A) : Steady (ret a).
Proof. intros s r s' [= <- <-]. apply same_tree_refl. Qed.

Lemma steady_raise {A} e : Steady (@raise A e).
Proof. intros s r s' [= <- <-]. apply same_tree_refl. Qed.

Lemma steady_out_of_fuel {A} : Steady (@out_of_fuel A).
Proof. intros s r s' [= <- <-]. apply same_tree_refl. Qed.

Lemma steady_bind {A B} (m : M A) (k : A -> M B) :
  Steady m -> (forall a, Steady (k a)) -> Steady (bind m k).
Proof.
  intros Hm Hk s r s'. unfold bind.
  destruct (m s) as [[a|e|] s1] eqn:E; intros H.
  - eapply same_tree_trans; [by eapply Hm | by eapply Hk].
  - inversion H; subst. by eapply Hm.
  - inversion H; subst. by eapply Hm.
Qed.

Lemma steady_emit e : Steady (emit e).
Proof. intros s r s' [= <- <-]. repeat split. by eexists. Qed.

Lemma steady_logging_debug l : Steady (logging_debug l).
Proof. intros s r s' [= <- <-]. repeat split. exists []. cbn. by rewrite app_nil_r. Qed.

Lemma steady_when b m : Steady m -> Steady (when b m).
Proof. destruct b; [done|]. intros _. apply steady_ret. Qed.

Lemma steady_transact self op : Steady (transact self op).
Proof. intros s r s' [= <- <-]. repeat split. by eexists. Qed.

Lemma steady_get_obj id : Steady (get_obj id).
Proof.
  intros s r s'. unfold get_obj. destruct (heap s !! id); intros [= <- <-];
    apply same_tree_refl.
Qed.

Lemma steady_get_device self : Steady (get_device self).
Proof.
  apply steady_bind; [apply steady_get_obj|].
  intros []; auto using steady_ret, steady_raise.
Qed.

Lemma steady_get_container self : Steady (get_container self).
Proof.
  apply steady_bind; [apply steady_get_obj|].
  intros []; auto using steady_ret, steady_raise.
Qed.

Lemma steady_get_tca self : Steady (get_tca self).
Proof.
  apply steady_bind; [apply steady_get_obj|].
  intros []; auto using steady_ret, steady_raise.
Qed.

Lemma steady_handle_error self name reg cause : Steady (handle_error self name reg cause).
Proof.
  apply steady_bind; [apply steady_get_device|]. intros d s r s'. cbv zeta beta.
  destruct (enable_exceptions s).
  - apply steady_raise.
  - apply steady_bind; [|intros; apply steady_ret].
    apply steady_when, steady_logging_debug.
Qed.

Lemma steady_func_of a self : Steady (func_of a self).
Proof.
  destruct a; cbn; (apply steady_bind; [apply steady_get_device|]); intros d;
    (apply steady_bind; [apply steady_transact|]); intros [cause|data];
    try apply steady_handle_error;
    (apply steady_bind; [|intros; apply steady_ret]);
    apply steady_when; try apply steady_logging_debug;
    (apply steady_bind; [|intros]); apply steady_logging_debug.
Qed.

Lemma skeleton_set_cache (hp : list Obj) (self : nat) t c :
  hp !! self = Some (OTCA t) ->
  skeleton <$> <[self := OTCA (mkTCA (base t) (attached_devices t) c)]> hp = skeleton <$> hp.
Proof.
  intros H. rewrite list_fmap_insert. apply list_insert_id.
  by rewrite list_lookup_fmap, H.
Qed.

Lemma steady_set_selected_channel self c : Steady (set_selected_channel self c).
Proof.
  intros s r s'. unfold set_selected_channel, get_tca, get_obj, put_obj, bind.
  destruct (heap s !! self) as [[d|k|t|]|] eqn:E; cbn; intros [= <- <-];
    try apply same_tree_refl.
  repeat split; cbn.
  - by apply skeleton_set_cache.
  - exists []. by rewrite app_nil_r.
Qed.

Section SteadyCall.

Variable call : Hook -> nat -> M unit.
Hypothesis steady_call : forall h arg, Steady (call h arg).

Lemma steady_call_if_set h arg : Steady (call_if_set call h arg).
Proof.
  destruct h; cbn; [apply steady_ret| |];
    (apply steady_bind; [apply steady_emit | intros; apply steady_call]).
Qed.

Lemma steady_access a self : Steady (access call a self).
Proof.
  apply steady_bind; [apply steady_get_device|]. intros d.
  apply steady_bind; [apply steady_call_if_set|]. intros _. apply steady_func_of.
Qed.

Lemma steady_container_device_callback self device :
  Steady (container_device_callback call self device).
Proof.
  apply steady_bind; [apply steady_get_container|]. intros c. apply steady_call_if_set.
Qed.

Lemma steady_tca_device_callback self device :
  Steady (tca_device_callback call self device).
Proof.
  apply steady_bind; [apply steady_get_tca|]. intros t.
  destruct (attached_devices t !! device); [|apply steady_raise].
  apply steady_bind; [apply steady_call_if_set|]. intros _.
  apply steady_bind; [apply steady_get_tca|]. intros t1.
  apply steady_bind.
  { unfold channel_of. destruct (attached_devices t1 !! device);
      auto using steady_ret, steady_raise. }
  intros ch. apply steady_bind; [apply steady_emit|]. intros _.
  destruct (decide (Some ch = selected_channel t1)); [apply steady_ret|].
  apply steady_bind; [apply steady_set_selected_channel|]. intros _.
  apply steady_bind; [apply steady_access|]. intros _. apply steady_ret.
Qed.

End SteadyCall.

Lemma steady_invoke fuel : forall h arg, Steady (invoke fuel h arg).
Proof.
  induction fuel as [|n IH]; intros h arg; cbn.
  - apply steady_out_of_fuel.
  - destruct h.
    + apply steady_raise.
    + by apply steady_container_device_callback.
    + by apply steady_tca_device_callback.
Qed.

(** ** Hooks and memberships under attach and detach *)



Lemma same_kind_refl o : same_kind o o.
Proof. by destruct o. Qed.


Lemma skeleton_lookup s s' (id : nat) :
  skeleton <$> heap s' = skeleton <$> heap s ->
  skeleton <$> (heap s' !! id) = skeleton <$> (heap s !! id).
Proof. intros H. by rewrite <- !list_lookup_fmap, H. Qed.




Lemma same_tree_lookup s s' (p : nat) o :
  same_tree s s' -> heap s !! p = Some o ->
  exists o', heap s' !! p = Some o' /\ skeleton o = skeleton o'.
Proof.
  intros (_ & Hs & _) Hp. pose proof (skeleton_lookup s s' p Hs) as H.
  rewrite Hp in H. destruct (heap s' !! p) as [o'|]; cbn in H; simplify_eq. eauto.
Qed.


















Section KeepsCall.

Variable call : Hook -> nat -> M unit.
Hypothesis steady_call : forall h arg, Steady (call h arg).




End KeepsCall.



Lemma grows_refl s : grows s s.
Proof. intros p o Hp. eauto using same_kind_refl. Qed.










Lemma remove_device_member_witness :
  ((container_remove_device 0 (ARef 2) two_containers).1 = Ok tt
   /\ hook_at (container_remove_device 0 (ARef 2) two_containers).2 2 = Some HookNone)
  /\ (tca_remove_device 3 (ARef 2) tca_then_container).1 = Ok tt
  /\ hook_at (tca_remove_device 3 (ARef 2) tca_then_container).2 2 = Some HookNone.
Proof.
  split.
  - assert (Hin : 2%nat ∈ c_attached_devices (mkContainer [2%nat] HookNone)).
    { simpl. left. }
    destruct (proj1 (remove_device_member two_containers 0 2 (ContainerCallback 1) eq_refl)
                (mkContainer [2%nat] HookNone) eq_refl Hin) as (Hr & Hh & _).
    split; [exact Hr | exact Hh].
  - assert (Hs : heap tca_then_container !! 3%nat
                 = Some (OTCA (mkTCA (mkDevice 112 false HookNone) {[2%nat := 5%N]} None))).
    { reflexivity. }
    assert (Hin : attached_devices (mkTCA (mkDevice 112 false HookNone) {[2%nat := 5%N]} None)
                    !! 2%nat = Some 5%N).
    { reflexivity. }
    destruct (proj2 (remove_device_member tca_then_container 3 2 (ContainerCallback 1) eq_refl)
                _ 5%N Hs Hin) as (Hr & Hh & _).
    split; [exact Hr | exact Hh].
Defined.

(** ** The dispatch of the multiplexer *)

Lemma device_of_skeleton o : device_of (skeleton o) = device_of o.
Proof. by destruct o. Qed.

Lemma same_tree_device_at s s' id : same_tree s s' -> device_at s' id = device_at s id.
Proof.
  intros (_ & Hs & _). pose proof (skeleton_lookup s s' id Hs) as H. unfold device_at.
  destruct (heap s' !! id) as [o'|], (heap s !! id) as [o|]; cbn in *; simplify_eq; [|done].
  by rewrite <- (device_of_skeleton o'), <- (device_of_skeleton o), H.
Qed.

Lemma same_tree_tca s s' (b : nat) B :
  same_tree s s' -> heap s !! b = Some (OTCA B) ->
  exists B1, heap s' !! b = Some (OTCA B1)
             /\ base B1 = base B /\ attached_devices B1 = attached_devices B.
Proof.
  intros Ht Hb. destruct (same_tree_lookup _ _ _ _ Ht Hb) as (o' & Ho' & Hsk).
  destruct o' as [?|?|B1|]; cbn in Hsk; simplify_eq. eauto.
Qed.

Lemma get_tca_ok s self t : heap s !! self = Some (OTCA t) -> get_tca self s = (Ok t, s).
Proof. intros H. unfold get_tca, get_obj, bind. by rewrite H. Qed.

Section Dispatch.

Variable call : Hook -> nat -> M unit.
Hypothesis steady_call : forall h arg, Steady (call h arg).

(** The callback is the upstream callback followed by [tca_select]. *)
Lemma tca_device_callback_run s b B leaf ch :
  heap s !! b = Some (OTCA B) -> attached_devices B !! leaf = Some ch ->
  tca_device_callback call b leaf s
  = match call_if_set call (pre_access (base B)) b s with
    | (Ok _, s1) => tca_select call b ch s1
    | (Raise e, s1) => (Raise e, s1)
    | (OutOfFuel, s1) => (OutOfFuel, s1)
    end.
Proof.
  intros Hb Hl. unfold tca_device_callback, bind at 1. rewrite (get_tca_ok _ _ _ Hb), Hl.
  unfold bind at 1.
  destruct (call_if_set call (pre_access (base B)) b s) as [[[]|e|] s1] eqn:E; try done.
  assert (Ht : same_tree s s1) by (by eapply steady_call_if_set).
  destruct (same_tree_tca _ _ _ _ Ht Hb) as (B1 & Hb1 & _ & Hm).
  unfold tca_select, bind. rewrite (get_tca_ok _ _ _ Hb1).
  unfold channel_of. by rewrite Hm, Hl.
Qed.

Lemma tca_select_hit s b B ch :
  heap s !! b = Some (OTCA B) -> selected_channel B = Some ch ->
  tca_select call b ch s = (Ok tt, set_trace (trace s ++ [EvCheck b ch (Some ch)]) s).
Proof.
  intros Hb Hc. unfold tca_select, bind. rewrite (get_tca_ok _ _ _ Hb), Hc.
  unfold emit. by rewrite decide_True.
Qed.

Lemma tca_select_miss s b B ch :
  heap s !! b = Some (OTCA B) -> selected_channel B <> Some ch ->
  tca_select call b ch s
  = (write8 call b 0 (Z.shiftl 1 (Z.of_N ch)) ;;; ret tt) (cache_set b B ch s).
Proof.
  intros Hb Hc. unfold tca_select, bind at 1. rewrite (get_tca_ok _ _ _ Hb).
  unfold bind at 1, emit. rewrite decide_False by congruence.
  unfold bind at 1, set_selected_channel, bind at 1.
  rewrite (get_tca_ok (set_trace _ s) b B) by done. by unfold put_obj.
Qed.


End Dispatch.


Lemma tca_device_callback_root call s b B leaf ch :
  heap s !! b = Some (OTCA B) -> pre_access (base B) = HookNone ->
  attached_devices B !! leaf = Some ch ->
  tca_device_callback call b leaf s = tca_select call b ch s.
Proof.
  intros Hb Hroot Hl. unfold tca_device_callback, tca_select, get_tca, get_obj, bind.
  rewrite Hb. cbn. rewrite Hl, Hroot. cbn. rewrite Hb. cbn.
  unfold channel_of. by rewrite Hl.
Qed.

Lemma tca_dispatch_root call s b B leaf ch :
  heap s !! b = Some (OTCA B) -> pre_access (base B) = HookNone ->
  attached_devices B !! leaf = Some ch ->
  let r := tca_device_callback call b leaf s in
  trace r.2
  = trace s ++ EvCheck b ch (selected_channel B)
       :: (if decide (selected_channel B = Some ch) then []
           else [select_write b B ch (next_reply s)])
  /\ script r.2 = (if decide (selected_channel B = Some ch) then script s
                   else tl (script s))
  /\ heap r.2 = <[b := OTCA (mkTCA (base B) (attached_devices B) (Some ch))]> (heap s)
  /\ r.1 = (if decide (selected_channel B = Some ch) then Ok tt
            else match outcome (Write8 0 (Z.shiftl 1 (Z.of_N ch))) (base B)
                               (enable_exceptions s) (next_reply s) with
                 | Ok _ => Ok tt
                 | Raise e => Raise e
                 | OutOfFuel => OutOfFuel
                 end).
Proof.
  intros Hb Hroot Hl r. subst r.
  assert (Hlt : (b < length (heap s))%nat) by (by eapply lookup_lt_Some).
  rewrite (tca_device_callback_root _ _ _ _ _ _ Hb Hroot Hl).
  destruct (decide (selected_channel B = Some ch)) as [Hc|Hc].
  - rewrite (tca_select_hit _ _ _ _ _ Hb Hc). cbn. rewrite Hc. repeat split.
    symmetry. apply list_insert_id. rewrite Hb. destruct B; cbn in *. by subst.
  - rewrite (tca_select_miss _ _ _ _ _ Hb Hc).
    set (B2 := mkTCA (base B) (attached_devices B) (Some ch)).
    assert (Hb2 : heap (cache_set b B ch s) !! b = Some (OTCA B2)).
    { cbn. by rewrite list_lookup_insert_eq. }
    assert (Hd : device_at (cache_set b B ch s) b = Some (base B2)).
    { unfold device_at. by rewrite Hb2. }
    unfold write8, bind. rewrite (access_unhooked _ _ _ _ _ Hd Hroot).
    destruct (func_of_run (Write8 0 (Z.shiftl 1 (Z.of_N ch))) b _ _ Hd) as [lg ->].
    destruct (outcome _ _ _ _); cbn; by rewrite <- app_assoc.
Qed.



(** ** The order of callbacks and transactions *)

Lemma access_hooked call a self s d :
  device_at s self = Some d -> pre_access d <> HookNone ->
  access call a self s
  = match call (pre_access d) self
            (set_trace (trace s ++ [EvCall (pre_access d) self]) s) with
    | (Ok _, s1) => func_of a self s1
    | (Raise e, s1) => (Raise e, s1)
    | (OutOfFuel, s1) => (OutOfFuel, s1)
    end.
Proof.
  intros Hd Hh. unfold access, call_pre_access, bind at 1.
  rewrite (get_device_ok _ _ _ Hd). unfold bind at 1.
  destruct (pre_access d) eqn:E; [done| |]; cbn [call_if_set];
    unfold call_hook, bind, emit;
    by destruct (call _ self _) as [[[]|?|] ?].
Qed.

Lemma tca_select_checked call s b B1 ch :
  heap s !! b = Some (OTCA B1) ->
  tca_select call b ch s
  = (if decide (Some ch = selected_channel B1) then ret tt
     else set_selected_channel b (Some ch) ;;;
          write8 call b 0 (Z.shiftl 1 (Z.of_N ch)) ;;; ret tt)
      (set_trace (trace s ++ [EvCheck b ch (selected_channel B1)]) s).
Proof.
  intros Hb. unfold tca_select, bind at 1. rewrite (get_tca_ok _ _ _ Hb).
  by unfold bind at 1, emit.
Qed.

Lemma steady_after_check call b ch B1 :
  (forall h arg, Steady (call h arg)) ->
  Steady (if decide (Some ch = selected_channel B1) then ret tt
          else set_selected_channel b (Some ch) ;;;
               write8 call b 0 (Z.shiftl 1 (Z.of_N ch)) ;;; ret tt).
Proof.
  intros Hc. destruct (decide (Some ch = selected_channel B1)); [apply steady_ret|].
  apply steady_bind; [apply steady_set_selected_channel|]. intros _.
  apply steady_bind; [by apply steady_access|]. intros _. apply steady_ret.
Qed.

(** C2: an entry point of a node whose hook is set calls the hook first;
    the transaction of the entry point is made after the hook has returned
    and is the last thing that happens, and it is not made at all when the
    hook does not return.  For a leaf on a multiplexer B that has a parent
    A, every access calls the dispatch of B, which calls the dispatch of A
    before anything else; the cache check of B follows the return of A's
    dispatch, and B checks and writes nothing when A's dispatch fails. *)
Theorem hook_runs_before_transaction (fuel : nat) (a : Access) (s : State) :
  (forall self d, device_at s self = Some d -> pre_access d <> HookNone ->
     let h := pre_access d in
     let hk := invoke fuel h self (set_trace (trace s ++ [EvCall h self]) s) in
     let r := access (invoke fuel) a self s in
     (exists evs, trace hk.2 = trace s ++ EvCall h self :: evs)
     /\ match hk.1 with
        | Ok _ =>
            trace r.2
              = trace hk.2 ++ [EvBus self (request_of a (address d)) (next_reply hk.2)]
            /\ r.1 = outcome a d (enable_exceptions s) (next_reply hk.2)
        | Raise e => r = (Raise e, hk.2)
        | OutOfFuel => r = (OutOfFuel, hk.2)
        end)
  /\ (forall leaf dl b B ch,
        device_at s leaf = Some dl -> pre_access dl = TCACallback b ->
        heap s !! b = Some (OTCA B) -> attached_devices B !! leaf = Some ch ->
        pre_access (base B) <> HookNone ->
        let hA := pre_access (base B) in
        let up := invoke fuel hA b
                    (set_trace (trace s ++ [EvCall (TCACallback b) leaf; EvCall hA b]) s) in
        let r := access (invoke (S fuel)) a leaf s in
        (exists evs,
           trace up.2 = trace s ++ EvCall (TCACallback b) leaf :: EvCall hA b :: evs)
        /\ exists rest,
             trace r.2 = trace up.2 ++ rest
             /\ match up.1 with
                | Ok _ => exists B1 tail,
                    heap up.2 !! b = Some (OTCA B1)
                    /\ rest = EvCheck b ch (selected_channel B1) :: tail
                | _ => rest = []
                end).
Proof.
  split.
  - intros self d Hd Hh h hk r. subst h hk r.
    rewrite (access_hooked _ _ _ _ _ Hd Hh).
    destruct (invoke fuel (pre_access d) self _) as [rh s1] eqn:E. cbn [fst snd].
    pose proof (steady_invoke fuel _ _ _ _ _ E) as Ht.
    split.
    { destruct Ht as (_ & _ & evs & Hevs). exists evs. rewrite Hevs. cbn.
      by rewrite <- app_assoc. }
    destruct rh as [[]|e|]; [|done..].
    assert (Hd1 : device_at s1 self = Some d).
    { rewrite (same_tree_device_at _ _ self Ht). exact Hd. }
    destruct (func_of_run a self s1 d Hd1) as [lg ->]. cbn.
    destruct Ht as (He & _). cbn in He. by rewrite He.
  - intros leaf dl b B ch Hd Hh Hb Hl HA hA up r. subst hA up r.
    assert (Hh' : pre_access dl <> HookNone) by (by rewrite Hh).
    rewrite (access_hooked _ _ _ _ _ Hd Hh'), Hh. cbn [invoke].
    set (s0 := set_trace (trace s ++ [EvCall (TCACallback b) leaf]) s).
    assert (Hb0 : heap s0 !! b = Some (OTCA B)) by done.
    rewrite (tca_device_callback_run (invoke fuel) (steady_invoke fuel) s0 b B leaf ch Hb0 Hl).
    assert (Hcall : call_if_set (invoke fuel) (pre_access (base B)) b s0
                    = invoke fuel (pre_access (base B)) b
                        (set_trace (trace s ++ [EvCall (TCACallback b) leaf;
                                                EvCall (pre_access (base B)) b]) s)).
    { destruct (pre_access (base B)) eqn:E; [done| |]; cbn [call_if_set];
        unfold call_hook, bind, emit, s0; cbn; by rewrite <- app_assoc. }
    rewrite Hcall.
    destruct (invoke fuel (pre_access (base B)) b _) as [rA sA] eqn:E. cbn [fst snd].
    pose proof (steady_invoke fuel _ _ _ _ _ E) as Ht.
    split.
    { destruct Ht as (_ & _ & evs & Hevs). exists evs. rewrite Hevs. cbn.
      by rewrite <- app_assoc. }
    destruct rA as [[]|e|]; [|exists []; by rewrite app_nil_r..].
    assert (Hbs : heap (set_trace (trace s ++ [EvCall (TCACallback b) leaf;
                                               EvCall (pre_access (base B)) b]) s) !! b
                  = Some (OTCA B)) by done.
    destruct (same_tree_tca _ _ _ _ Ht Hbs) as (B1 & Hb1 & _ & _).
    rewrite (tca_select_checked _ _ _ _ _ Hb1).
    set (sE := set_trace (trace sA ++ [EvCheck b ch (selected_channel B1)]) sA).
    destruct ((if decide (Some ch = selected_channel B1) then ret tt
               else set_selected_channel b (Some ch) ;;;
                    write8 (invoke fuel) b 0 (Z.shiftl 1 (Z.of_N ch)) ;;; ret tt) sE)
      as [rK sK] eqn:EK.
    pose proof (steady_after_check (invoke fuel) b ch B1 (steady_invoke fuel) _ _ _ EK)
      as (_ & _ & evsK & HevsK).
    assert (Hfin : exists tail2,
              trace (match rK with
                     | Ok _ => func_of a leaf sK
                     | Raise e => (Raise e, sK)
                     | OutOfFuel => (OutOfFuel, sK)
                     end).2 = trace sK ++ tail2).
    { destruct rK as [[]|e|]; [|exists []; by rewrite app_nil_r..].
      destruct (func_of a leaf sK) as [rf sf] eqn:Ef.
      destruct (steady_func_of a leaf _ _ _ Ef) as (_ & _ & evsf & Hevsf). by exists evsf. }
    destruct Hfin as [tail2 Hfin].
    exists (EvCheck b ch (selected_channel B1) :: evsK ++ tail2).
    split; [|by exists B1, (evsK ++ tail2)].
    rewrite Hfin, HevsK. cbn. by rewrite <- !app_assoc.
Qed.

Lemma hook_runs_before_transaction_witness :
  let s := chain_tree false [] in
  let hk := invoke 3 (TCACallback 1) 2 (set_trace [EvCall (TCACallback 1) 2] s) in
  let up := invoke 2 (TCACallback 0) 1
              (set_trace [EvCall (TCACallback 1) 2; EvCall (TCACallback 0) 1] s) in
  let r := access (invoke 3) (ReadU8 5) 2 s in
  ((exists evs, trace hk.2 = EvCall (TCACallback 1) 2 :: evs)
   /\ trace r.2 = trace hk.2 ++ [EvBus 2 (ReadByteData 80 5) (next_reply hk.2)]
   /\ r.1 = Ok (VInt 0))
  /\ (exists evs, trace up.2 = EvCall (TCACallback 1) 2 :: EvCall (TCACallback 0) 1 :: evs)
  /\ exists rest B1 tail,
       trace r.2 = trace up.2 ++ rest
       /\ heap up.2 !! 1%nat = Some (OTCA B1)
       /\ rest = EvCheck 1 3 (selected_channel B1) :: tail.
Proof.
  intros s hk up r.
  destruct (hook_runs_before_transaction 3 (ReadU8 5) s) as (Ha & _).
  destruct (hook_runs_before_transaction 2 (ReadU8 5) s) as (_ & Hb).
  assert (Hd : device_at s 2 = Some (mkDevice 80 false (TCACallback 1))).
  { reflexivity. }
  assert (Hs : heap s !! 1%nat
               = Some (OTCA (mkTCA (mkDevice 113 false (TCACallback 0)) {[2%nat := 3%N]} None))).
  { reflexivity. }
  assert (Hl : attached_devices
                 (mkTCA (mkDevice 113 false (TCACallback 0)) {[2%nat := 3%N]} None) !! 2%nat
               = Some 3%N).
  { reflexivity. }
  split.
  - destruct (Ha 2%nat _ Hd) as (He & Hm).
    + discriminate.
    + split; [exact He|]. exact Hm.
  - destruct (Hb 2%nat _ 1%nat _ 3%N Hd eq_refl Hs Hl) as (He & rest & Hr & B1 & tail & HB & Ht).
    + discriminate.
    + split; [exact He|]. exists rest, B1, tail. split; [exact Hr|]. split; [exact HB|exact Ht].
Defined.

(** ** The cache after a failed select write *)

Lemma control_register_app addr tr1 tr2 :
  control_register addr (tr1 ++ tr2)
  = foldl (register_after addr) (control_register addr tr1) tr2.
Proof. unfold control_register. apply foldl_app. Qed.

(** C3 fails on the code: when the select write of a cache miss is not
    acknowledged, the dispatch has already stored the new channel in
    [_selected_channel], whether the failure is raised or returned as
    [ERROR]; the control register still holds what it held before. *)
Theorem failed_select_leaves_stale_cache (fuel : nat) (s : State) (b : nat) (B : TCA9548)
    (leaf : nat) (ch : N) (cause : string) :
  heap s !! b = Some (OTCA B) -> pre_access (base B) = HookNone ->
  attached_devices B !! leaf = Some ch -> selected_channel B <> Some ch ->
  next_reply s = IOError cause ->
  let r := invoke (S fuel) (TCACallback b) leaf s in
  heap r.2 !! b = Some (OTCA (mkTCA (base B) (attached_devices B) (Some ch)))
  /\ control_register (address (base B)) (trace r.2)
     = control_register (address (base B)) (trace s)
  /\ r.1 = (if enable_exceptions s
            then Raise (I2CException
                          (AccessError (err_msg_of "write8" (address (base B)) 0 cause)))
            else Ok tt).
Proof.
  intros Hb Hroot Hl Hc Hr r. subst r. cbn [invoke].
  assert (Hlt : (b < length (heap s))%nat) by (by eapply lookup_lt_Some).
  destruct (tca_dispatch_root (invoke fuel) s b B leaf ch Hb Hroot Hl) as (Ht & _ & Hh & Hres).
  rewrite decide_False in Ht by done. rewrite decide_False in Hres by done.
  split; [|split].
  - rewrite Hh. by apply list_lookup_insert_eq.
  - rewrite Ht, control_register_app, Hr. reflexivity.
  - rewrite Hres, Hr. cbn. by destruct (enable_exceptions s).
Qed.

Lemma failed_select_leaves_stale_cache_witness :
  let s := fresh_mux false [IOError "[Errno 5] Input/output error"] in
  let r := invoke 1 (TCACallback 0) 1 s in
  let r2 := write8 (invoke 1) 1 16 255 s in
  (heap r.2 !! 0%nat
     = Some (OTCA (mkTCA (mkDevice 112 false HookNone) {[1%nat := 2%N]} (Some 2%N)))
   /\ control_register 112 (trace r.2) = Some 0
   /\ r.1 = Ok tt)
  /\ ~ cache_agrees (mkTCA (mkDevice 112 false HookNone) {[1%nat := 2%N]} (Some 2%N))
         (trace r.2)
  /\ r2.1 = Ok VNone
  /\ trace r2.2
     = [EvBus 0 (WriteByteData 112 0 0) (Ack []);
        EvCall (TCACallback 0) 1; EvCheck 0 2 None;
        EvBus 0 (WriteByteData 112 0 4) (IOError "[Errno 5] Input/output error");
        EvBus 1 (WriteByteData 80 16 255) (Ack [])].
Proof.
  intros s r r2.
  assert (Hb : heap s !! 0%nat
               = Some (OTCA (mkTCA (mkDevice 112 false HookNone) {[1%nat := 2%N]} None))).
  { reflexivity. }
  assert (Hl : attached_devices (mkTCA (mkDevice 112 false HookNone) {[1%nat := 2%N]} None)
                 !! 1%nat = Some 2%N).
  { reflexivity. }
  assert (Hc : selected_channel (mkTCA (mkDevice 112 false HookNone) {[1%nat := 2%N]} None)
               <> Some 2%N).
  { discriminate. }
  destruct (failed_select_leaves_stale_cache 0 s 0 _ 1 2%N
              "[Errno 5] Input/output error" Hb eq_refl Hl Hc eq_refl) as (Hh & Hreg & Hres).
  assert (Hreg' : control_register 112 (trace r.2) = Some 0) by exact Hreg.
  split; [|split; [|split]].
  - split; [exact Hh|]. split; [exact Hreg' | exact Hres].
  - change (control_register 112 (trace r.2) <> Some 4). rewrite Hreg'. discriminate.
  - reflexivity.
  - reflexivity.
Defined.

(** ** attach followed by detach *)

Lemma list_remove_app_last (x : nat) l : x ∉ l -> list_remove x (l ++ [x]) = l.
Proof.
  induction l as [|y l IH]; cbn; intros Hx.
  - by rewrite decide_True.
  - apply not_elem_of_cons in Hx as [Hne Hx]. rewrite decide_False by done.
    by rewrite IH.
Qed.

Lemma with_pre_access_twice h h' o :
  with_pre_access h (with_pre_access h' o) = with_pre_access h o.
Proof. by destruct o. Qed.

Lemma container_attach_instance_run s self id C o :
  heap s !! self = Some (OContainer C) -> heap s !! id = Some o -> is_node o = true ->
  let C' := mkContainer (c_attached_devices C ++ [id]) (c_pre_access C) in
  container_attach_instance self (ARef id) s
  = (Ok id,
     set_heap (<[id := with_pre_access (ContainerCallback self)
                          (if decide (id = self) then OContainer C' else o)]>
                 (<[self := OContainer C']> (heap s))) s).
Proof.
  intros Hs Hid Hn C'. unfold container_attach_instance, isinstance_node, bind.
  rewrite Hid. fold (is_node o). rewrite Hn.
  unfold get_container, get_obj, bind. rewrite Hs. unfold ret at 1. cbv beta iota.
  unfold put_obj at 1. cbv beta iota.
  assert (Hlt : (self < length (heap s))%nat) by (by eapply lookup_lt_Some).
  erewrite set_pre_access_run; [done|]. cbn.
  destruct (decide (id = self)) as [->|Hne].
  - by rewrite list_lookup_insert_eq.
  - by rewrite list_lookup_insert_ne.
Qed.

Lemma tca_attach_instance_run s self channel id T o :
  heap s !! self = Some (OTCA T) -> heap s !! id = Some o -> is_node o = true ->
  let T' := mkTCA (base T) (<[id := channel]> (attached_devices T)) (selected_channel T) in
  tca_attach_instance self channel (ARef id) s
  = (Ok id,
     set_heap (<[id := with_pre_access (TCACallback self)
                          (if decide (id = self) then OTCA T' else o)]>
                 (<[self := OTCA T']> (heap s))) s).
Proof.
  intros Hs Hid Hn T'. unfold tca_attach_instance, isinstance_node, bind.
  rewrite Hid. fold (is_node o). rewrite Hn.
  unfold get_tca, get_obj, bind. rewrite Hs. unfold ret at 1. cbv beta iota.
  unfold put_obj at 1. cbv beta iota.
  assert (Hlt : (self < length (heap s))%nat) by (by eapply lookup_lt_Some).
  erewrite set_pre_access_run; [done|]. cbn.
  destruct (decide (id = self)) as [->|Hne].
  - by rewrite list_lookup_insert_eq.
  - by rewrite list_lookup_insert_ne.
Qed.

Lemma container_remove_device_run s self id C o :
  heap s !! self = Some (OContainer C) -> id ∈ c_attached_devices C ->
  heap s !! id = Some o ->
  let C' := mkContainer (list_remove id (c_attached_devices C)) (c_pre_access C) in
  container_remove_device self (ARef id) s
  = (Ok tt,
     set_heap (<[id := with_pre_access HookNone
                          (if decide (id = self) then OContainer C' else o)]>
                 (<[self := OContainer C']> (heap s))) s).
Proof.
  intros Hs Hin Hid C'. unfold container_remove_device, get_container, get_obj, bind.
  rewrite Hs. unfold ret at 1. cbv beta iota. rewrite decide_True by done.
  unfold put_obj at 1. cbv beta iota.
  assert (Hlt : (self < length (heap s))%nat) by (by eapply lookup_lt_Some).
  erewrite set_pre_access_run; [done|]. cbn.
  destruct (decide (id = self)) as [->|Hne].
  - by rewrite list_lookup_insert_eq.
  - by rewrite list_lookup_insert_ne.
Qed.

Lemma tca_remove_device_run s self id T ch o :
  heap s !! self = Some (OTCA T) -> attached_devices T !! id = Some ch ->
  heap s !! id = Some o ->
  let T' := mkTCA (base T) (delete id (attached_devices T)) (selected_channel T) in
  tca_remove_device self (ARef id) s
  = (Ok tt,
     set_heap (<[id := with_pre_access HookNone
                          (if decide (id = self) then OTCA T' else o)]>
                 (<[self := OTCA T']> (heap s))) s).
Proof.
  intros Hs Hin Hid T'. unfold tca_remove_device, get_tca, get_obj, bind.
  rewrite Hs. unfold ret at 1. cbv beta iota. rewrite Hin.
  unfold put_obj at 1. cbv beta iota.
  assert (Hlt : (self < length (heap s))%nat) by (by eapply lookup_lt_Some).
  erewrite set_pre_access_run; [done|]. cbn.
  destruct (decide (id = self)) as [->|Hne].
  - by rewrite list_lookup_insert_eq.
  - by rewrite list_lookup_insert_ne.
Qed.

(** X1: attaching an instance that the parent does not hold yet and
    detaching it again returns the parent to what it was: the member list or
    channel map, the cached channel, the bus and the trace are as before,
    and the only change in the whole tree is that the hook of the node is
    None; an access to the node then goes straight to the bus. *)
Theorem attach_then_remove_restores (call : Hook -> nat -> M unit) (s : State)
    (self id : nat) (o : Obj) :
  heap s !! id = Some o -> is_node o = true ->
  let s' := set_heap (<[id := with_pre_access HookNone o]> (heap s)) s in
  (forall C, heap s !! self = Some (OContainer C) -> id ∉ c_attached_devices C ->
     exists s1, container_attach_device call self (ARef id) s = (Ok id, s1)
                /\ container_remove_device self (ARef id) s1 = (Ok tt, s'))
  /\ (forall T channel, heap s !! self = Some (OTCA T) -> attached_devices T !! id = None ->
     exists s1, tca_attach_device call self channel (ARef id) s = (Ok id, s1)
                /\ tca_remove_device self (ARef id) s1 = (Ok tt, s'))
  /\ (forall d a, device_of o = Some d -> access call a id s' = func_of a id s').
Proof.
  intros Hid Hn s'.
  assert (Hlti : (id < length (heap s))%nat) by (by eapply lookup_lt_Some).
  split; [|split].
  - intros C Hs Hnin.
    assert (Hlt : (self < length (heap s))%nat) by (by eapply lookup_lt_Some).
    eexists. split.
    { change (container_attach_device call self (ARef id) s)
        with (container_attach_instance self (ARef id) s).
      by apply container_attach_instance_run with (C := C) (o := o). }
    set (C1 := mkContainer (c_attached_devices C ++ [id]) (c_pre_access C)).
    destruct (decide (id = self)) as [->|Hne].
    + rewrite list_insert_insert_eq.
      erewrite container_remove_device_run;
        [| cbn; by apply list_lookup_insert_eq | cbn; apply elem_of_app; right; by left
         | cbn; by apply list_lookup_insert_eq ].
      cbn. rewrite decide_True by done. rewrite !list_insert_insert_eq.
      unfold s'. rewrite list_remove_app_last by done.
      rewrite Hs in Hid. by simplify_eq.
    + erewrite container_remove_device_run;
        [| cbn; rewrite list_lookup_insert_ne by done; by apply list_lookup_insert_eq
         | cbn; apply elem_of_app; right; by left
         | cbn; apply list_lookup_insert_eq; by rewrite length_insert ].
      cbn. rewrite decide_False by done. rewrite list_remove_app_last by done.
      rewrite with_pre_access_twice.
      rewrite (list_insert_insert_ne _ self id) by done.
      rewrite !list_insert_insert_eq.
      unfold s', set_heap. cbn. rewrite (list_insert_id (heap s) self); [done|].
      rewrite Hs. by destruct C.
  - intros T channel Hs Hnin.
    assert (Hlt : (self < length (heap s))%nat) by (by eapply lookup_lt_Some).
    eexists. split.
    { change (tca_attach_device call self channel (ARef id) s)
        with (tca_attach_instance self channel (ARef id) s).
      by apply tca_attach_instance_run with (T := T) (o := o). }
    destruct (decide (id = self)) as [->|Hne].
    + rewrite list_insert_insert_eq.
      erewrite tca_remove_device_run;
        [| cbn; by apply list_lookup_insert_eq | cbn; by apply lookup_insert_eq
         | cbn; by apply list_lookup_insert_eq ].
      cbn. rewrite decide_True by done. rewrite !list_insert_insert_eq.
      unfold s'. rewrite delete_insert_id by done.
      rewrite Hs in Hid. by simplify_eq.
    + erewrite tca_remove_device_run;
        [| cbn; rewrite list_lookup_insert_ne by done; by apply list_lookup_insert_eq
         | cbn; by apply lookup_insert_eq
         | cbn; apply list_lookup_insert_eq; by rewrite length_insert ].
      cbn. rewrite decide_False by done. rewrite delete_insert_id by done.
      rewrite with_pre_access_twice.
      rewrite (list_insert_insert_ne _ self id) by done.
      rewrite !list_insert_insert_eq.
      unfold s', set_heap. cbn. rewrite (list_insert_id (heap s) self); [done|].
      rewrite Hs. by destruct T.
  - intros d a Hd. apply access_unhooked with (d := mkDevice (address d) (debug d) HookNone).
    + unfold device_at, s'. cbn. rewrite list_lookup_insert_eq by done.
      destruct o; cbn in *; by simplify_eq.
    + done.
Qed.

Lemma attach_then_remove_restores_witness :
  (exists s1, container_attach_device (invoke 0) 0 (ARef 2) parents0 = (Ok 2%nat, s1)
              /\ container_remove_device 0 (ARef 2) s1 = (Ok tt, parents0))
  /\ (exists s1, tca_attach_device (invoke 0) 3 5 (ARef 2) parents0 = (Ok 2%nat, s1)
                 /\ tca_remove_device 3 (ARef 2) s1 = (Ok tt, parents0)).
Proof.
  assert (Hid : heap parents0 !! 2%nat = Some (ODevice (mkDevice 32 false HookNone))).
  { reflexivity. }
  destruct (attach_then_remove_restores (invoke 0) parents0 0 2 _ Hid eq_refl) as (Hc & _).
  destruct (attach_then_remove_restores (invoke 0) parents0 3 2 _ Hid eq_refl) as (_ & Ht & _).
  split.
  - apply (Hc (mkContainer [] HookNone)); [reflexivity|].
    simpl. intros Hin. inversion Hin.
  - apply (Ht (mkTCA (mkDevice 112 false HookNone) ∅ None) 5%N); reflexivity.
Defined.

(** ** attach_device with a class *)

Lemma bind_ok {A B} (m : M A) (k : A -> M B) s a s1 :
  m s = (Ok a, s1) -> bind m k s = k a s1.
Proof. intros H. unfold bind. by rewrite H. Qed.

Lemma bind_raise {A B} (m : M A) (k : A -> M B) s e s1 :
  m s = (Raise e, s1) -> bind m k s = (Raise e, s1).
Proof. intros H. unfold bind. by rewrite H. Qed.

Lemma set_selected_channel_run s self T c :
  heap s !! self = Some (OTCA T) ->
  set_selected_channel self c s
  = (Ok tt, set_heap (<[self := OTCA (mkTCA (base T) (attached_devices T) c)]> (heap s)) s).
Proof.
  intros Hs. unfold set_selected_channel, bind. by rewrite (get_tca_ok _ _ _ Hs).
Qed.

(** X2: [TCA9548.attach_device] with a class makes the select write for the
    channel first and whatever the cache holds.  When the write fails with
    exceptions enabled the call raises with the objects untouched: nothing
    is constructed, attached or cached.  Otherwise the cache takes the
    channel, the new device is constructed, recorded on the channel and
    hooked to the multiplexer, and the select write is the only
    transaction. *)
Theorem tca_attach_class_selects_first (call : Hook -> nat -> M unit) (s : State)
    (self : nat) (T : TCA9548) (channel : N) (addr : Z) (dbg : bool) :
  heap s !! self = Some (OTCA T) -> pre_access (base T) = HookNone ->
  let r := tca_attach_device call self channel (AClass (ClsI2CDevice addr dbg)) s in
  let new := length (heap s) in
  trace r.2 = trace s ++ [select_write self T channel (next_reply s)]
  /\ match next_reply s, enable_exceptions s with
     | IOError cause, true =>
         r.1 = Raise (I2CException
                        (AccessError (err_msg_of "write8" (address (base T)) 0 cause)))
         /\ heap r.2 = heap s
     | _, _ =>
         r.1 = Ok new
         /\ heap r.2 !! new = Some (ODevice (mkDevice addr dbg (TCACallback self)))
         /\ heap r.2 !! self
            = Some (OTCA (mkTCA (base T) (<[new := channel]> (attached_devices T))
                                (Some channel)))
         /\ length (heap r.2) = S (length (heap s))
     end.
Proof.
  intros Hs Hroot r new.
  assert (Hlt : (self < length (heap s))%nat) by (by eapply lookup_lt_Some).
  assert (Hd : device_at s self = Some (base T)) by (unfold device_at; by rewrite Hs).
  destruct (func_of_run (Write8 0 (Z.shiftl 1 (Z.of_N channel))) self s _ Hd) as [lg Hf].
  rewrite <- (access_unhooked call _ _ _ _ Hd Hroot) in Hf.
  fold (write8 call self 0 (Z.shiftl 1 (Z.of_N channel))) in Hf.
  set (s1 := set_log lg _) in Hf.
  assert (Hs1 : heap s1 !! self = Some (OTCA T)) by done.
  assert (Htr : trace s1 = trace s ++ [select_write self T channel (next_reply s)]) by done.
  assert (Hhp : heap s1 = heap s) by done.
  rewrite <- Htr. clearbody s1.
  assert (Hcont :
    (set_selected_channel self (Some channel) ;;;
     id <- construct call (ClsI2CDevice addr dbg) ;; ret (ARef id)) s1
    = (Ok (ARef new),
       set_heap (<[self := OTCA (mkTCA (base T) (attached_devices T) (Some channel))]>
                   (heap s) ++ [ODevice (mkDevice addr dbg HookNone)]) s1)).
  { unfold bind at 1. rewrite (set_selected_channel_run _ _ _ _ Hs1).
    unfold bind, construct, alloc, ret. cbn. by rewrite Hhp, length_insert. }
  assert (Hfin :
    let r := tca_attach_instance self channel (ARef new)
               (set_heap (<[self := OTCA (mkTCA (base T) (attached_devices T)
                                                (Some channel))]>
                            (heap s) ++ [ODevice (mkDevice addr dbg HookNone)]) s1) in
    trace r.2 = trace s1 /\ r.1 = Ok new
    /\ heap r.2 !! new = Some (ODevice (mkDevice addr dbg (TCACallback self)))
    /\ heap r.2 !! self
       = Some (OTCA (mkTCA (base T) (<[new := channel]> (attached_devices T))
                           (Some channel)))
    /\ length (heap r.2) = S (length (heap s))).
  { intros r'.
    assert (Hnew : new <> self) by (unfold new; lia).
    subst r'. erewrite tca_attach_instance_run;
      [| cbn; rewrite lookup_app_l by (by rewrite length_insert);
         by apply list_lookup_insert_eq
       | cbn; apply list_lookup_middle; by rewrite length_insert
       | done ].
    cbn. rewrite decide_False by done. split; [done|]. split; [done|].
    rewrite !length_insert, length_app, length_insert. cbn.
    split; [|split; [|lia]].
    - apply list_lookup_insert_eq. rewrite length_insert, length_app, length_insert. cbn.
      unfold new. lia.
    - rewrite list_lookup_insert_ne by done.
      apply list_lookup_insert_eq. rewrite length_app, length_insert. cbn. lia. }
  assert (Hgo : forall v, write8 call self 0 (Z.shiftl 1 (Z.of_N channel)) s = (Ok v, s1) ->
            trace r.2 = trace s1 /\ r.1 = Ok new
            /\ heap r.2 !! new = Some (ODevice (mkDevice addr dbg (TCACallback self)))
            /\ heap r.2 !! self
               = Some (OTCA (mkTCA (base T) (<[new := channel]> (attached_devices T))
                                   (Some channel)))
            /\ length (heap r.2) = S (length (heap s))).
  { intros v Hw. subst r. unfold tca_attach_device.
    erewrite bind_ok; [exact Hfin|].
    erewrite bind_ok; [exact Hcont | exact Hw]. }
  unfold outcome in Hf.
  destruct (next_reply s) as [cause|data] eqn:Hr.
  - destruct (enable_exceptions s) eqn:He.
    + subst r. unfold tca_attach_device.
      erewrite bind_raise; [|erewrite bind_raise; [reflexivity|exact Hf]].
      cbn. by rewrite Hhp.
    + destruct (Hgo _ Hf) as (Ht & Hrest). by rewrite Ht.
  - destruct (Hgo _ Hf) as (Ht & Hrest). rewrite Ht.
    destruct (enable_exceptions s); by split.
Qed.
